(** * es_pydantic: the bulk Session, the document mapper and the index
    lifecycle manager, as a shallow embedding of [es_pydantic/model.py] and
    [es_pydantic/helpers.py]. *)

From Stdlib Require Import ZArith Ascii String List Bool Lia.
From stdpp Require Import base option list strings.
Import ListNotations.
Local Open Scope string_scope.
Local Open Scope list_scope.

(** ** Python values *)

(** The dynamically typed values that flow through the mapper and the
    session: bodies, bulk actions, keyword arguments, store responses. A
    dict is an association list in insertion order, as Python keeps it. *)
#[warnings="-register-all"]
Inductive PyVal : Type :=
| VNone
| VBool (b : bool)
| VInt (z : Z)
| VStr (s : string)
| VDatetime (iso : string)
| VList (l : list PyVal)
| VDict (d : list (string * PyVal))
| VObj (name : string).

Abbreviation Dict := (list (string * PyVal)).

(** [bool(v)]: what [if v], [not v] and [a or b] look at. *)
Definition truthy (v : PyVal) : bool :=
  match v with
  | VNone => false
  | VBool b => b
  | VInt z => negb (Z.eqb z 0)
  | VStr s => negb (String.eqb s EmptyString)
  | VDatetime _ => true
  | VList l => match l with [] => false | _ => true end
  | VDict d => match d with [] => false | _ => true end
  | VObj _ => true
  end.

(** [d.get(k)] *)
Fixpoint dict_get {A : Type} (k : string) (d : list (string * A)) : option A :=
  match d with
  | [] => None
  | (k', v) :: d' => if String.eqb k' k then Some v else dict_get k d'
  end.

(** [d[k] = v]: an existing key keeps its place, a new one goes last. *)
Fixpoint dict_set {A : Type} (k : string) (v : A) (d : list (string * A))
  : list (string * A) :=
  match d with
  | [] => [(k, v)]
  | (k', v') :: d' =>
      if String.eqb k' k then (k', v) :: d' else (k', v') :: dict_set k v d'
  end.

(** [{**d, **e}] *)
Definition dict_merge {A : Type} (d e : list (string * A)) : list (string * A) :=
  fold_left (fun acc kv => dict_set (fst kv) (snd kv) acc) e d.

(** [{k: v for k, v in d.items() if v}] *)
Definition dict_truthy (d : Dict) : Dict :=
  filter (fun kv => truthy (snd kv) = true) d.

(** ** Exceptions and results *)

Inductive Exc : Type :=
| MISSING_ID
| ValidationError
| InvalidElasticsearchResponse
| SessionError (errors : PyVal)
| KeyError (k : string)
| IndexError
| TypeError
| AttributeError
| ValueError
| ReferenceError
| StoreError (msg : string).

Inductive Res (A : Type) : Type :=
| Ret (a : A)
| Raise (e : Exc).
Arguments Ret {A} a.
Arguments Raise {A} e.

Definition res_bind {A B : Type} (r : Res A) (k : A -> Res B) : Res B :=
  match r with
  | Ret a => k a
  | Raise e => Raise e
  end.

(** [v[k]] on a value *)
Definition getitem (v : PyVal) (k : string) : Res PyVal :=
  match v with
  | VDict d => match dict_get k d with
               | Some x => Ret x
               | None => Raise (KeyError k)
               end
  | _ => Raise TypeError
  end.

(** ** Session: the mutation buffer *)

Record Session : Type := mkSession {
  actions : list (string * list PyVal);
  _refresh : option bool;
  results : PyVal
}.

(** [Session.__init__] *)
Definition Session_init (refresh : option bool) : Session :=
  {| actions := []; _refresh := refresh; results := VList [] |}.

(** [self.actions.clear()] *)
Definition clear_actions (s : Session) : Session :=
  {| actions := []; _refresh := _refresh s; results := results s |}.

(** [Session.__aenter__] *)
Definition aenter (s : Session) : Session := clear_actions s.

(** [self.actions[name]] read on the defaultdict, without the insertion *)
Definition bucket (name : string) (acts : list (string * list PyVal)) : list PyVal :=
  default [] (dict_get name acts).

(** [self.actions[name].append(action)] *)
Fixpoint bucket_append (name : string) (action : PyVal)
    (acts : list (string * list PyVal)) : list (string * list PyVal) :=
  match acts with
  | [] => [(name, [action])]
  | (k, l) :: acts' =>
      if String.eqb k name then (k, l ++ [action]) :: acts'
      else (k, l) :: bucket_append name action acts'
  end.

(** [Session._action] *)
Definition _action (name : string) (action : PyVal) (s : Session) : nat * Session :=
  let s' := {| actions := bucket_append name action (actions s);
               _refresh := _refresh s; results := results s |} in
  (length (bucket name (actions s')) - 1, s').

(** [extra or {}] *)
Definition or_empty (extra : option Dict) : Dict := default [] extra.

(** [Session.index] *)
Definition index (body : PyVal) (index_name : string) (extra : option Dict)
    (s : Session) : nat * Session :=
  let request :=
    dict_merge [("_index", VStr index_name); ("_op_type", VStr "index");
                ("_source", body)] (or_empty extra) in
  _action "index" (VDict request) s.

(** [Session.delete] *)
Definition delete (_id : PyVal) (index_name : string) (s : Session) : nat * Session :=
  let request := [("_id", _id); ("_index", VStr index_name);
                  ("_op_type", VStr "delete")] in
  _action "delete" (VDict request) s.

(** [Session.create] *)
Definition create (body : PyVal) (_id : PyVal) (index_name : string)
    (s : Session) : nat * Session :=
  let request := [("_id", _id); ("_index", VStr index_name);
                  ("_op_type", VStr "create"); ("_source", body)] in
  _action "create" (VDict request) s.

(** [Session.update] *)
Definition update (body : PyVal) (_id : PyVal) (index_name : string)
    (s : Session) : nat * Session :=
  let request := [("_index", VStr index_name); ("_op_type", VStr "update");
                  ("_source", VDict [("doc", body)]); ("_id", _id)] in
  _action "update" (VDict request) s.

(** [Session.bulk_index]: the list comprehension over [collection] *)
Fixpoint bulk_index (collection : list PyVal) (index_name : string) (s : Session)
  : list nat * Session :=
  match collection with
  | [] => ([], s)
  | model :: rest =>
      let '(i, s1) := index model index_name None s in
      let '(is_, s2) := bulk_index rest index_name s1 in
      (i :: is_, s2)
  end.

(** A raw enqueue call on a session, and a sequence of them. *)
Inductive Enqueue : Type :=
| EIndex (body : PyVal) (index_name : string) (extra : option Dict)
| ECreate (body _id : PyVal) (index_name : string)
| EUpdate (body _id : PyVal) (index_name : string)
| EDelete (_id : PyVal) (index_name : string).

Definition opKind (c : Enqueue) : string :=
  match c with
  | EIndex _ _ _ => "index"
  | ECreate _ _ _ => "create"
  | EUpdate _ _ _ => "update"
  | EDelete _ _ => "delete"
  end.

Definition enqueue (c : Enqueue) (s : Session) : nat * Session :=
  match c with
  | EIndex body i extra => index body i extra s
  | ECreate body _id i => create body _id i s
  | EUpdate body _id i => update body _id i s
  | EDelete _id i => delete _id i s
  end.

Fixpoint enqueue_all (cs : list Enqueue) (s : Session) : list nat * Session :=
  match cs with
  | [] => ([], s)
  | c :: cs' =>
      let '(i, s1) := enqueue c s in
      let '(is_, s2) := enqueue_all cs' s1 in
      (i :: is_, s2)
  end.


(** ** The bulk helper ([helpers.py]) *)

#[global] Instance Res_ret : MRet Res := fun _ a => Ret a.
#[global] Instance Res_bind : MBind Res := fun _ _ k r => res_bind r k.

(** What the async generator [helpers.async_streaming_bulk] of the
    elasticsearch client does when it is driven with [anext]: it yields
    [(ok, item)] pairs and then finishes, either normally
    ([StopAsyncIteration]), or by raising [BulkIndexError] (after which a
    generator is exhausted), or by raising anything else. *)
Inductive Ending : Type :=
| StopAsyncIteration
| BulkIndexError (errors : list PyVal)
| Raised (e : Exc).

Record Stream : Type := mkStream {
  yielded : list (bool * PyVal);
  ending : Ending
}.

(** One invocation of [helpers.async_streaming_bulk]: its [client], its
    [actions], its [ignore_status] and the remaining keyword arguments. *)
Record BulkCall : Type := mkBulkCall {
  bc_client : PyVal;
  bc_actions : PyVal;
  bc_ignore_status : PyVal;
  bc_kwargs : Dict
}.

(** [refresh_keyword] *)
Definition refresh_keyword (r : option bool) : string :=
  match r with
  | None => "wait_for"
  | Some true => "true"
  | Some false => "false"
  end.

(** [a or b] on [Optional[bool]] *)
Definition or_refresh (a b : option bool) : option bool :=
  match a with
  | Some true => a
  | _ => b
  end.

(** The locals of [async_bulk]. *)
Record Tally : Type := mkTally {
  success : nat;
  failed : nat;
  bulk_results : list (string * list PyVal);
  bulk_errors : list (string * list PyVal)
}.

(** [list(item.keys())[0]] *)
Definition first_key (item : PyVal) : Res string :=
  match item with
  | VDict ((k, _) :: _) => Ret k
  | VDict [] => Raise IndexError
  | _ => Raise AttributeError
  end.

(** The body of the [while True] loop after [ok, item] are bound. *)
Definition tally_item (stats_only ok : bool) (item : PyVal) (t : Tally) : Res Tally :=
  action ← first_key item;
  if negb ok then
    if negb stats_only then
      info ← getitem item action;
      mret {| success := success t; failed := failed t + 1;
              bulk_results := bulk_results t;
              bulk_errors := bucket_append action info (bulk_errors t) |}
    else
      mret {| success := success t; failed := failed t + 1;
              bulk_results := bulk_results t; bulk_errors := bulk_errors t |}
  else
    if negb stats_only then
      info ← getitem item action;
      _id ← getitem info "_id";
      mret {| success := success t + 1; failed := failed t;
              bulk_results := bucket_append action _id (bulk_results t);
              bulk_errors := bulk_errors t |}
    else
      mret {| success := success t + 1; failed := failed t;
              bulk_results := bulk_results t; bulk_errors := bulk_errors t |}.

(** The iterations whose [anext] returns a pair. *)
Fixpoint drain (stats_only : bool) (ys : list (bool * PyVal)) (t : Tally) : Res Tally :=
  match ys with
  | [] => Ret t
  | (ok, item) :: ys' => t' ← tally_item stats_only ok item t; drain stats_only ys' t'
  end.

(** The last iterations: [StopAsyncIteration] breaks; [BulkIndexError]
    is turned into the failed item [e.errors[0]] and the next [anext]
    on the exhausted generator breaks; anything else propagates. *)
Definition finish (stats_only : bool) (e : Ending) (t : Tally) : Res Tally :=
  match e with
  | StopAsyncIteration => Ret t
  | BulkIndexError errs =>
      match errs with
      | [] => Raise IndexError
      | item :: _ => tally_item stats_only false item t
      end
  | Raised ex => Raise ex
  end.

(** [dict(d)] of a [defaultdict(list)] *)
Definition dict_of_buckets (d : list (string * list PyVal)) : PyVal :=
  VDict (map (fun kl => (fst kl, VList (snd kl))) d).

Definition dict_del (k : string) (d : Dict) : Dict :=
  filter (fun kv => fst kv ≠ k) d.

Definition commit_kwargs_of (client : PyVal) (acts : list (string * list PyVal))
    (chunk_size : option Z) (refresh : string) : Dict :=
  [("client", client);
   ("actions", VList (concat (map snd acts)));
   ("chunk_size", match chunk_size with Some n => VInt n | None => VNone end);
   ("refresh", VStr refresh);
   ("raise_on_error", VBool false);
   ("stats_only", VBool false)].

(** ** Records ([ESModel]) *)

(** A concrete record type: its [Meta.index] and its constructor, which
    runs the schema framework's validators and coercions over the keyword
    arguments and gives the value of [id] and of the declared fields, or
    fails with [ValidationError]. *)
Record ModelClass : Type := mkModelClass {
  Meta_index : string;
  cls_init : Dict -> option (PyVal * Dict)
}.

Record ESModel : Type := mkESModel {
  cls : ModelClass;
  id : PyVal;
  fields : Dict
}.

(** The instance after [model.id = v] *)
Definition with_id (v : PyVal) (m : ESModel) : ESModel :=
  {| cls := cls m; id := v; fields := fields m |}.

(** [self.dict()] *)
Definition model_dict (m : ESModel) : Dict := ("id", id m) :: fields m.

(** [ESModel.validate_model] *)
Definition validate_model (m : ESModel) : Res bool :=
  match cls_init (cls m) (model_dict m) with
  | Some _ => Ret true
  | None => Raise ValidationError
  end.

(** [d[k] = v.isoformat()] for the datetime values of [d] *)
Definition encode_datetimes (d : Dict) : Dict :=
  map (fun kv => match snd kv with
                 | VDatetime iso => (fst kv, VStr iso)
                 | _ => kv
                 end) d.

(** [ESModel.to_es], called without keyword arguments *)
Definition to_es (m : ESModel) : Res PyVal :=
  _ ← validate_model m;
  mret (VDict (encode_datetimes (fields m))).

(** The constructor call of [from_es], [cls] applied to the keywords of
    [source], followed by [model.id = _id] *)
Definition construct (c : ModelClass) (source _id : PyVal) : Res ESModel :=
  match source with
  | VDict kwargs =>
      match cls_init c kwargs with
      | Some (_, fs) => Ret {| cls := c; id := _id; fields := fs |}
      | None => Raise ValidationError
      end
  | _ => Raise TypeError
  end.

(** [ESModel.from_es] *)
Definition from_es (c : ModelClass) (data : Dict) : Res (option ESModel) :=
  if negb (truthy (VDict data)) then Ret None
  else
    let source := default (VDict []) (dict_get "_source" data) in
    let _id := default VNone (dict_get "_id" data) in
    if negb (truthy source) || negb (truthy _id)
    then Raise InvalidElasticsearchResponse
    else model ← construct c source _id; mret (Some model).

Section Store.

(** The elasticsearch client library is an external collaborator: its
    streaming helper and the process-wide connection are parameters. *)
Variable async_streaming_bulk : BulkCall -> Stream.
Variable raw_connection : PyVal.

(** [helpers.async_bulk], called with the keyword arguments [kwargs]. [client] and [actions] are
    keyword-only parameters without default: the call raises [TypeError]
    when one is missing. The empty tuple default of [ignore_status] is
    written as the empty list. Returns the value and the invocations of the
    streaming helper it made. *)
Definition async_bulk (kwargs : Dict) : Res (PyVal * PyVal) * list BulkCall :=
  match dict_get "client" kwargs, dict_get "actions" kwargs with
  | Some client, Some acts =>
      let stats_only := truthy (default (VBool false) (dict_get "stats_only" kwargs)) in
      let ignore_status := default (VList []) (dict_get "ignore_status" kwargs) in
      let rest := dict_del "client" (dict_del "actions"
                    (dict_del "stats_only" (dict_del "ignore_status" kwargs))) in
      let call := {| bc_client := client; bc_actions := acts;
                     bc_ignore_status := ignore_status;
                     bc_kwargs := dict_set "yield_ok" (VBool true) rest |} in
      let stream := async_streaming_bulk call in
      let t0 := {| success := 0; failed := 0; bulk_results := []; bulk_errors := [] |} in
      (t ← (drain stats_only (yielded stream) t0 ≫= finish stats_only (ending stream));
       mret (if stats_only
             then (VInt (Z.of_nat (success t)), VInt (Z.of_nat (failed t)))
             else (dict_of_buckets (bulk_results t), dict_of_buckets (bulk_errors t))),
       [call])
  | _, _ => (Raise TypeError, [])
  end.

(** [Session.commit]. Returns the outcome, the session afterwards and the
    invocations of the streaming helper. *)
Definition commit (refresh : option bool) (chunk_size : option Z)
    (async_bulk_kwargs : option Dict) (s : Session)
  : Res PyVal * Session * list BulkCall :=
  match actions s with
  | [] => (Ret (VDict []), s, [])
  | _ :: _ =>
      let async_bulk_kwargs := or_empty async_bulk_kwargs in
      let refresh := refresh_keyword (or_refresh refresh (_refresh s)) in
      let kwargs := commit_kwargs_of raw_connection (actions s) chunk_size refresh in
      let kwargs := dict_merge async_bulk_kwargs kwargs in
      let kwargs := dict_truthy kwargs in
      match async_bulk kwargs with
      | (Raise e, calls) => (Raise e, clear_actions s, calls)
      | (Ret (res, errors), calls) =>
          let s' := {| actions := []; _refresh := _refresh s; results := res |} in
          if truthy errors then (Raise (SessionError errors), s', calls)
          else (Ret res, s', calls)
      end
  end.

(** ** Model-level operations ([Session.SessionModel]) *)

(** The objects a [SessionModel] call can reach: the record instances
    (a record is named by its position in [heap], so that one instance
    listed twice is one object), the session it wraps, and the calls made
    to the store so far. *)
Record St : Type := mkSt {
  heap : list ESModel;
  session : Session;
  sent : list BulkCall
}.

Definition M (A : Type) : Type := St -> Res A * St.

#[global] Instance M_ret : MRet M := fun _ a st => (Ret a, st).
#[global] Instance M_bind : MBind M := fun _ _ k m st =>
  match m st with
  | (Ret a, st') => k a st'
  | (Raise e, st') => (Raise e, st')
  end.

Definition raise {A : Type} (e : Exc) : M A := fun st => (Raise e, st).

Definition lift_res {A : Type} (r : Res A) : M A := fun st => (r, st).

(** Reading an object through its reference. A position outside the heap
    names no object; Python has no such reference, and the model raises
    [ReferenceError] there. *)
Definition deref (r : nat) : M ESModel := fun st =>
  match heap st !! r with
  | Some m => (Ret m, st)
  | None => (Raise ReferenceError, st)
  end.

(** [model.id = v] *)
Definition set_id (r : nat) (v : PyVal) : M unit := fun st =>
  match heap st !! r with
  | Some m =>
      (Ret (), {| heap := <[r := with_id v m]> (heap st);
                  session := session st; sent := sent st |})
  | None => (Raise ReferenceError, st)
  end.

(** A buffer operation of the wrapped session *)
Definition on_session {A : Type} (f : Session -> A * Session) : M A := fun st =>
  let '(a, s') := f (session st) in
  (Ret a, {| heap := heap st; session := s'; sent := sent st |}).

(** The keyword arguments of [commit]; an absent key has the default of
    [no_commit_kwargs]. *)
Record CommitArgs : Type := mkCommitArgs {
  ck_refresh : option bool;
  ck_chunk_size : option Z;
  ck_async_bulk_kwargs : option Dict
}.

Definition no_commit_kwargs : CommitArgs :=
  {| ck_refresh := Some false; ck_chunk_size := None; ck_async_bulk_kwargs := None |}.

(** [await self.session.commit(...)] *)
Definition session_commit (ck : CommitArgs) : M PyVal := fun st =>
  let '(r, s', calls) :=
    commit (ck_refresh ck) (ck_chunk_size ck) (ck_async_bulk_kwargs ck) (session st) in
  (r, {| heap := heap st; session := s'; sent := sent st ++ calls |}).

(** [SessionModel.index] *)
Definition SessionModel_index (model : nat) (extra : option Dict) : M nat :=
  let extra := or_empty extra in
  m ← deref model;
  body ← lift_res (to_es m);
  on_session (index body (Meta_index (cls m)) (Some extra)).

(** [SessionModel.update] *)
Definition SessionModel_update (model : nat) : M nat :=
  m ← deref model;
  if negb (truthy (id m)) then raise MISSING_ID
  else
    body ← lift_res (to_es m);
    on_session (update body (id m) (Meta_index (cls m))).

(** [SessionModel.delete] *)
Definition SessionModel_delete (model : nat) : M nat :=
  m ← deref model;
  if negb (truthy (id m)) then raise MISSING_ID
  else
    _ ← lift_res (validate_model m);
    on_session (delete (id m) (Meta_index (cls m))).

(** [SessionModel.create] *)
Definition SessionModel_create (model : nat) : M nat :=
  m ← deref model;
  if negb (truthy (id m)) then raise MISSING_ID
  else
    body ← lift_res (to_es m);
    on_session (create body (id m) (Meta_index (cls m))).

(** [for model in models: model.validate_model()] *)
Fixpoint validate_all (models : list nat) : M unit :=
  match models with
  | [] => mret ()
  | model :: rest =>
      m ← deref model; _ ← lift_res (validate_model m); validate_all rest
  end.

(** [[self.index(model=model) for model in models]] *)
Fixpoint index_all (models : list nat) : M (list nat) :=
  match models with
  | [] => mret []
  | model :: rest =>
      i ← SessionModel_index model None;
      is_ ← index_all rest;
      mret (i :: is_)
  end.

(** What iterating over a value yields. *)
Definition iterate (v : PyVal) : Res (list PyVal) :=
  match v with
  | VList l => Ret l
  | VDict d => Ret (map (fun kv => VStr (fst kv)) d)
  | VStr s => Ret (map (fun a => VStr (String a EmptyString)) (list_ascii_of_string s))
  | _ => Raise TypeError
  end.

(** [for i, created_id in zip(model_indices, ids, strict=True):
    models[i].id = created_id]. The body runs for every pair before a
    length mismatch is found. *)
Fixpoint patch_ids (models model_indices : list nat) (ids : list PyVal) : M unit :=
  match model_indices, ids with
  | [], [] => mret ()
  | i :: model_indices', created_id :: ids' =>
      match models !! i with
      | Some model => _ ← set_id model created_id; patch_ids models model_indices' ids'
      | None => raise IndexError
      end
  | _, _ => raise ValueError
  end.

(** [SessionModel.bulk_index] *)
Definition SessionModel_bulk_index (models : list nat) (commit_kwargs : CommitArgs)
  : M (list nat) :=
  _ ← validate_all models;
  model_indices ← index_all models;
  results ← session_commit commit_kwargs;
  ids ← lift_res (getitem results "index" ≫= iterate);
  _ ← patch_ids models model_indices ids;
  mret models.

(** [ESModel.bulk_index], the class method: the session is a local of the
    call. [__aenter__] clears the new session's buffer and [__aexit__]
    lets an exception of the body through. *)
Definition ESModel_bulk_index (c : ModelClass) (collection : list PyVal) : M PyVal :=
  fun st =>
    let session0 := aenter (Session_init (Some true)) in
    let '(_, session1) := bulk_index collection (Meta_index c) session0 in
    let '(r, _, calls) := commit (Some false) None None session1 in
    (results ← r; getitem results "index",
     {| heap := heap st; session := session st; sent := sent st ++ calls |}).

End Store.

(** ** Index lifecycle ([ESModel._Index]) *)

(** [s.replace("*", by_)] *)
Fixpoint replace_star (s by_ : string) : string :=
  match s with
  | EmptyString => EmptyString
  | String a s' =>
      if Ascii.eqb a "*"%char then by_ +:+ replace_star s' by_
      else String a (replace_star s' by_)
  end.

(** [_Index.pattern] *)
Definition pattern (_index_name : string) : string := _index_name +:+ "-*".

(** [_Index.alias] *)
Definition alias (_index_name : string) : string := _index_name.

Inductive AliasAction : Type :=
| Remove (alias_name index_expr : string)
| Add (alias_name index_name : string).

(** The requests [migrate] sends through the client. *)
Inductive Request : Type :=
| IndicesCreate (index_name : string)
| AsyncReindex (source_index target_index : string)
| IndicesRefresh (index_name : string)
| UpdateAliases (acts : list AliasAction).

Definition IO (A : Type) : Type := list Request -> Res A * list Request.

#[global] Instance IO_ret : MRet IO := fun _ a log => (Ret a, log).
#[global] Instance IO_bind : MBind IO := fun _ _ k m log =>
  match m log with
  | (Ret a, log') => k a log'
  | (Raise e, log') => (Raise e, log')
  end.

Section Lifecycle.

(** The store's answer to a request, given the requests it has served. *)
Variable respond : list Request -> Request -> Res PyVal.

Definition request (rq : Request) : IO PyVal := fun log =>
  (respond log rq, log ++ [rq]).

(** [_Index.migrate]; [now] is
    [datetime.utcnow().strftime("%Y%m%d-%H%M%S%f")]. *)
Definition migrate (_index_name now : string) (move_data update_alias : bool)
  : IO PyVal :=
  let next_index := replace_star (pattern _index_name) now in
  res ← request (IndicesCreate next_index);
  index_ ← (fun log => (getitem res "index", log));
  _ ← (if move_data then
         _ ← request (AsyncReindex (alias _index_name) next_index);
         request (IndicesRefresh next_index)
       else mret VNone);
  _ ← (if update_alias then
         request (UpdateAliases
                    [Remove (alias _index_name) (pattern _index_name);
                     Add (alias _index_name) next_index])
       else mret VNone);
  mret index_.

End Lifecycle.

(** The store side of an alias request, as the lifecycle manager relies
    on it: the alias table is a list of (alias, index) bindings, a request
    is applied as one step, its actions in order; [matches] is the store's
    resolution of an index expression. *)
Section AliasTable.

Variable matches : string -> string -> bool.

Definition apply_action (t : list (string * string)) (a : AliasAction)
  : list (string * string) :=
  match a with
  | Remove al expr =>
      filter (fun p => negb (String.eqb (fst p) al && matches expr (snd p)) = true) t
  | Add al ix =>
      if existsb (fun p => String.eqb (fst p) al && String.eqb (snd p) ix) t
      then t else t ++ [(al, ix)]
  end.

Definition serve (t : list (string * string)) (rq : Request) : list (string * string) :=
  match rq with
  | UpdateAliases acts => fold_left apply_action acts t
  | _ => t
  end.

(** The indices an alias resolves to. *)
Definition resolve (al : string) (t : list (string * string)) : list string :=
  map snd (filter (fun p => String.eqb (fst p) al = true) t).

(** The tables a reader can see while the store serves [log], one after
    each request. *)
Fixpoint observable (t : list (string * string)) (log : list Request)
  : list (list (string * string)) :=
  match log with
  | [] => []
  | rq :: log' => serve t rq :: observable (serve t rq) log'
  end.

End AliasTable.

(** ** Vocabulary of the statements *)

(** The keyword arguments [commit] passes to [async_bulk]. *)
Definition sent_kwargs (raw_connection : PyVal) (refresh : option bool)
    (chunk_size : option Z) (async_bulk_kwargs : option Dict) (s : Session) : Dict :=
  dict_truthy
    (dict_merge (or_empty async_bulk_kwargs)
       (commit_kwargs_of raw_connection (actions s) chunk_size
          (refresh_keyword (or_refresh refresh (_refresh s))))).

(** A hit lacks [k] when it has no such key or a falsy value under it
    ([None], the empty string, the empty body). *)
Definition lacks (k : string) (data : Dict) : Prop :=
  match dict_get k data with
  | Some v => truthy v = false
  | None => True
  end.

(** The raw enqueue call that [SessionModel.index] makes for a valid
    record. *)
Definition index_call (m : ESModel) : Enqueue :=
  EIndex (VDict (encode_datetimes (fields m))) (Meta_index (cls m)) (Some []).



(** The bulk action [Session.index] builds for a body. *)
Definition index_action (index_name : string) (body : PyVal) : PyVal :=
  VDict [("_index", VStr index_name); ("_op_type", VStr "index"); ("_source", body)].

(** The stream item [y] reports a created document named [_id]. *)
Definition created (y : bool * PyVal) (_id : PyVal) : Prop :=
  exists info rest,
    y = (true, VDict (("index", VDict info) :: rest)) /\ dict_get "_id" info = Some _id.

(** Identifier assignment by the class method, as the specification words
    it: once [ESModel.bulk_index] has returned, every record whose body was
    passed has an identifier, and no two records share one. *)
Definition class_bulk_index_assigns_ids : Prop :=
  forall store conn c (records : list ESModel) (bodies : list PyVal) st ids st',
    heap st = records ->
    Forall2 (fun m body => to_es m = Ret body) records bodies ->
    ESModel_bulk_index store conn c bodies st = (Ret ids, st') ->
    Forall (fun m => id m ≠ VNone) (heap st') /\ NoDup (map id (heap st')).

(** The failures of kind [kind] among the items a stream yielded, in
    order: what the store said of each failed operation. *)
Definition failures_of (kind : string) (ys : list (bool * PyVal)) : list PyVal :=
  omap (fun y : bool * PyVal =>
          if fst y then None
          else match snd y with
               | VDict ((k, info) :: _) =>
                   if String.eqb k kind then Some info else None
               | _ => None
               end) ys.

(** The alias request of [migrate]. *)
Definition repoint (_index_name now : string) : Request :=
  UpdateAliases [Remove (alias _index_name) (pattern _index_name);
                 Add (alias _index_name) (replace_star (pattern _index_name) now)].

Definition is_alias_request (rq : Request) : bool :=
  match rq with
  | UpdateAliases _ => true
  | _ => false
  end.

(** ** Concrete collaborators, for the instances *)

(** The connected client's raw connection. *)
Definition es_connection : PyVal := VObj "AsyncElasticsearch".

(** The [Shirt] record type of the test suite: two keyword fields, the
    colour validator, no undeclared field. *)
Definition Shirt_init (kwargs : Dict) : option (PyVal * Dict) :=
  match dict_get "brand" kwargs, dict_get "color" kwargs with
  | Some (VStr brand), Some (VStr color) =>
      if (String.eqb color "black" || String.eqb color "red")
         && forallb (fun kv => String.eqb (fst kv) "id" || String.eqb (fst kv) "brand"
                               || String.eqb (fst kv) "color") kwargs
      then Some (default VNone (dict_get "id" kwargs),
                 [("brand", VStr brand); ("color", VStr color)])
      else None
  | _, _ => None
  end.

Definition Shirt : ModelClass := {| Meta_index := "shirts"; cls_init := Shirt_init |}.

Definition shirt (_id : PyVal) (brand color : string) : ESModel :=
  {| cls := Shirt; id := _id; fields := [("brand", VStr brand); ("color", VStr color)] |}.

(** The response item of a store that does not hold the document an
    action names: status 404, under the action's operation type. *)
Definition not_found (action : PyVal) : PyVal :=
  match action with
  | VDict d =>
      match dict_get "_op_type" d with
      | Some (VStr op) =>
          VDict [(op, VDict [("_index", default VNone (dict_get "_index" d));
                             ("_id", default VNone (dict_get "_id" d));
                             ("status", VInt 404);
                             ("result", VStr "not_found")])]
      | _ => VDict []
      end
  | _ => VDict []
  end.

(** The streaming helper in front of a store that holds no document.
    As the docstring of [async_bulk] has it, the helper raises
    [BulkIndexError] by default when it meets an error; the failed items
    are reported one by one only when [raise_on_error] reaches it as
    [False]. *)
Definition store_without_documents (call : BulkCall) : Stream :=
  let items := match bc_actions call with
               | VList l => map not_found l
               | _ => []
               end in
  let raise_on_error := match dict_get "raise_on_error" (bc_kwargs call) with
                        | Some v => truthy v
                        | None => true
                        end in
  if raise_on_error
  then {| yielded := []; ending := BulkIndexError items |}
  else {| yielded := map (fun item => (false, item)) items; ending := StopAsyncIteration |}.

(** The streaming helper in front of a store that accepts index actions
    and names the documents it creates as [names] says, in order. *)
Definition store_naming (names : list string) (call : BulkCall) : Stream :=
  {| yielded := map (fun n => (true, VDict [("index", VDict [("_id", VStr n);
                                                             ("status", VInt 201)])]))
                    names;
     ending := StopAsyncIteration |}.

(** Two shirts that were never saved, and a session just entered. *)
Definition two_unsaved_shirts : St :=
  {| heap := [shirt VNone "Nike" "red"; shirt VNone "Zara" "black"];
     session := aenter (Session_init (Some true));
     sent := [] |}.

(** A session with two pending deletes of documents the store lacks. *)
Definition two_deletes : Session :=
  snd (delete (VStr "2") "shirts" (snd (delete (VStr "1") "shirts" (Session_init (Some false))))).

(** A shirt that was never saved, next to a session with one pending
    mutation. *)
Definition unsaved_shirt_state : St :=
  {| heap := [shirt VNone "Adidas" "black"];
     session := snd (index (VDict []) "shirts" None (Session_init (Some true)));
     sent := [] |}.

(** A store that acknowledges every request, naming the index it
    created. *)
Definition acknowledging_store (served : list Request) (rq : Request) : Res PyVal :=
  match rq with
  | IndicesCreate index_name =>
      Ret (VDict [("acknowledged", VBool true); ("index", VStr index_name)])
  | _ => Ret (VDict [("acknowledged", VBool true)])
  end.

(** Index expressions with a trailing wildcard. *)
Fixpoint wildcard_match (expr name : string) : bool :=
  match expr with
  | EmptyString => match name with EmptyString => true | _ => false end
  | String a expr' =>
      if Ascii.eqb a "*"%char && String.eqb expr' EmptyString then true
      else match name with
           | String b name' => Ascii.eqb a b && wildcard_match expr' name'
           | EmptyString => false
           end
  end.

(** The alias table before a second migration of "shirts". *)
Definition shirts_aliased_once : list (string * string) :=
  [("shirts", "shirts-20230101-000000000000"); ("events", "events-20230101-000000000000")].

(** ** Vocabulary of the further properties *)

(** The bulk action a raw enqueue call builds. *)
Definition request_of (c : Enqueue) : PyVal :=
  match c with
  | EIndex body index_name extra =>
      VDict (dict_merge [("_index", VStr index_name); ("_op_type", VStr "index");
                         ("_source", body)] (or_empty extra))
  | ECreate body _id index_name =>
      VDict [("_id", _id); ("_index", VStr index_name); ("_op_type", VStr "create");
             ("_source", body)]
  | EUpdate body _id index_name =>
      VDict [("_index", VStr index_name); ("_op_type", VStr "update");
             ("_source", VDict [("doc", body)]); ("_id", _id)]
  | EDelete _id index_name =>
      VDict [("_id", _id); ("_index", VStr index_name); ("_op_type", VStr "delete")]
  end.

(** The identifiers of the operations of kind [kind] that a stream reported
    as done, in order. *)
Definition successes_of (kind : string) (ys : list (bool * PyVal)) : list PyVal :=
  omap (fun y : bool * PyVal =>
          if fst y then
            match snd y with
            | VDict ((k, VDict info) :: _) =>
                if String.eqb k kind then dict_get "_id" info else None
            | _ => None
            end
          else None) ys.

(** A stream item as the bulk helper yields them: a dict whose first key is
    the operation kind, with the document's [_id] in what it holds when the
    operation was done. *)
Definition answered (y : bool * PyVal) : Prop :=
  exists kind info rest,
    snd y = VDict ((kind, info) :: rest) /\
    (fst y = true -> exists _id, getitem info "_id" = Ret _id).

(** The invocation of the streaming helper that [async_bulk] makes for
    keyword arguments that name a client and actions. *)
Definition bulk_call_of (kwargs : Dict) : BulkCall :=
  {| bc_client := default VNone (dict_get "client" kwargs);
     bc_actions := default VNone (dict_get "actions" kwargs);
     bc_ignore_status := default (VList []) (dict_get "ignore_status" kwargs);
     bc_kwargs := dict_set "yield_ok" (VBool true)
                    (dict_del "client" (dict_del "actions"
                       (dict_del "stats_only" (dict_del "ignore_status" kwargs)))) |}.

(** A stream item that is a dict with at least one key. *)
Definition keyed (y : bool * PyVal) : Prop :=
  exists kind info rest, snd y = VDict ((kind, info) :: rest).

(** The streaming helper replaying a recorded stream. *)
Definition store_yielding (ys : list (bool * PyVal)) (e : Ending) (call : BulkCall)
  : Stream := {| yielded := ys; ending := e |}.

(** A session with one index and one delete pending, and the stream of a
    store that creates the first document as "a" and lacks the second. *)
Definition index_then_delete : Session :=
  snd (delete (VStr "9") "shirts"
         (snd (index (VDict [("brand", VStr "Nike"); ("color", VStr "red")]) "shirts" None
                 (Session_init (Some false))))).

Definition created_then_missing : list (bool * PyVal) :=
  [(true, VDict [("index", VDict [("_id", VStr "a"); ("status", VInt 201)])]);
   (false, VDict [("delete", VDict [("_id", VStr "9"); ("status", VInt 404)])])].

(** A saved shirt whose colour no longer passes the validator. *)
Definition repainted_shirt_state : St :=
  {| heap := [shirt (VStr "7") "Nike" "blue"];
     session := Session_init (Some false);
     sent := [] |}.

(** An unsaved shirt next to a session that already holds an index
    mutation. *)
Definition shirt_after_raw_index : St :=
  {| heap := [shirt VNone "Nike" "red"];
     session := snd (index (VDict [("brand", VStr "Zara"); ("color", VStr "black")])
                       "shirts" None (Session_init (Some true)));
     sent := [] |}.

(** What a model-level enqueue leaves when it goes through the raw call
    [c] of the wrapped session. *)
Definition through_session (c : Enqueue) (st : St) : Res nat * St :=
  (Ret (fst (enqueue c (session st))),
   {| heap := heap st; session := snd (enqueue c (session st)); sent := sent st |}).

(** A saved shirt and a fresh session. *)
Definition saved_shirt_state : St :=
  {| heap := [shirt (VStr "7") "Nike" "red"];
     session := Session_init (Some false);
     sent := [] |}.

(** ** Single documents ([ESModel.to_es], [save], [get], [delete]) *)

(** [ESModel.to_es] called with [exclude=...]: the identifier and the
    excluded names are left out of [self.dict()], then the datetime values
    are encoded. *)
Definition to_es_excluding (exclude : list string) (m : ESModel) : Res PyVal :=
  _ ← validate_model m;
  let exclude := "id" :: exclude in
  let d := filter (fun kv => fst kv ∉ exclude) (model_dict m) in
  mret (VDict (encode_datetimes d)).

(** [v.isoformat()] for a datetime, [v] otherwise *)
Definition encoded (v : PyVal) : PyVal :=
  match v with
  | VDatetime iso => VStr iso
  | _ => v
  end.

Definition is_datetime (v : PyVal) : Prop :=
  match v with
  | VDatetime _ => True
  | _ => False
  end.

(** The requests of the single-document operations. *)
Inductive ClientRequest : Type :=
| ClientIndex (index_name : string) (body _id : PyVal) (refresh : string)
| ClientGet (index_name : string) (_id : PyVal)
| ClientDelete (index_name : string) (_id : PyVal) (refresh : string).

(** What the client answers: a response, the elasticsearch library's
    not-found error, or any other error. *)
Inductive ClientReply : Type :=
| Replied (res : PyVal)
| ElasticNotFoundError
| ClientRaised (e : Exc).

(** What comes out of a single-document operation when it raises: the
    mapper's own [NotFoundError], the library's one when it is not caught,
    or anything else. *)
Inductive MapperError : Type :=
| NotFoundError (message : string)
| UncaughtNotFound
| Uncaught (e : Exc).

Inductive Outcome (A : Type) : Type :=
| Done (a : A)
| Thrown (e : MapperError).
Arguments Done {A} a.
Arguments Thrown {A} e.

Record MapperSt : Type := mkMapperSt {
  records : list ESModel;
  requests : list ClientRequest
}.

(** [index or self.Meta.index] *)
Definition index_or (index_name : option string) (meta_index : string) : string :=
  match index_name with
  | Some i => if String.eqb i EmptyString then meta_index else i
  | None => meta_index
  end.

Section Mapper.

(** The client's answer to a request, given the requests it has served,
    and Python's [str] on the values that appear as identifiers. *)
Variable client : list ClientRequest -> ClientRequest -> ClientReply.
Variable str : PyVal -> string.

(** [ESModel.save] *)
Definition save (self : nat) (index_name : option string) (refresh : option bool)
    (st : MapperSt) : Outcome PyVal * MapperSt :=
  match records st !! self with
  | None => (Thrown (Uncaught ReferenceError), st)
  | Some m =>
      match validate_model m with
      | Raise e => (Thrown (Uncaught e), st)
      | Ret _ =>
          let doc := VDict (filter (fun kv => fst kv ≠ "id") (model_dict m)) in
          let refresh := refresh_keyword refresh in
          let index_name := index_or index_name (Meta_index (cls m)) in
          let rq := ClientIndex index_name doc (id m) refresh in
          let st1 := {| records := records st; requests := requests st ++ [rq] |} in
          match client (requests st) rq with
          | Replied (VDict res) =>
              let _id := default VNone (dict_get "_id" res) in
              (Done _id,
               {| records := <[self := with_id _id m]> (records st);
                  requests := requests st ++ [rq] |})
          | Replied _ => (Thrown (Uncaught AttributeError), st1)
          | ElasticNotFoundError => (Thrown UncaughtNotFound, st1)
          | ClientRaised e => (Thrown (Uncaught e), st1)
          end
      end
  end.

(** [ESModel.get] *)
Definition get (c : ModelClass) (_id : PyVal) (index_name : option string)
    (st : MapperSt) : Outcome (option ESModel) * MapperSt :=
  let index_name := index_or index_name (Meta_index c) in
  let rq := ClientGet index_name _id in
  let st1 := {| records := records st; requests := requests st ++ [rq] |} in
  match client (requests st) rq with
  | Replied res =>
      if negb (truthy res) then (Done None, st1)
      else match res with
           | VDict data =>
               match from_es c data with
               | Ret r => (Done r, st1)
               | Raise e => (Thrown (Uncaught e), st1)
               end
           | _ => (Thrown (Uncaught AttributeError), st1)
           end
  | ElasticNotFoundError =>
      (Thrown (NotFoundError ("document with id " +:+ str _id +:+ " is not found")), st1)
  | ClientRaised e => (Thrown (Uncaught e), st1)
  end.

(** [ESModel.delete] *)
Definition ESModel_delete (self : nat) (index_name : option string)
    (refresh : option bool) (st : MapperSt) : Outcome unit * MapperSt :=
  match records st !! self with
  | None => (Thrown (Uncaught ReferenceError), st)
  | Some m =>
      if negb (truthy (id m)) then (Thrown (Uncaught MISSING_ID), st)
      else
        let refresh := refresh_keyword refresh in
        let index_name := index_or index_name (Meta_index (cls m)) in
        let rq := ClientDelete index_name (id m) refresh in
        let st1 := {| records := records st; requests := requests st ++ [rq] |} in
        match client (requests st) rq with
        | Replied _ => (Done (), st1)
        | ElasticNotFoundError =>
            (Thrown (NotFoundError
                       ("document with id=" +:+ str (id m) +:+ " is not found")), st1)
        | ClientRaised e => (Thrown (Uncaught e), st1)
        end
  end.

End Mapper.

(** A client in front of a store that assigns the identifier "n1" to what
    it indexes and holds nothing else. *)
Definition client_naming_n1 (served : list ClientRequest) (rq : ClientRequest)
  : ClientReply :=
  match rq with
  | ClientIndex _ _ _ _ => Replied (VDict [("_id", VStr "n1"); ("result", VStr "created")])
  | _ => ElasticNotFoundError
  end.

(** [str] on the identifiers used below. *)
Definition str_of_id (v : PyVal) : string :=
  match v with
  | VStr s => s
  | _ => "None"
  end.

Definition one_unsaved_shirt : MapperSt :=
  {| records := [shirt VNone "Nike" "red"]; requests := [] |}.

Definition one_saved_shirt : MapperSt :=
  {| records := [shirt (VStr "n1") "Nike" "red"]; requests := [] |}.

(** A client in front of a store that holds the shirt "n1". *)
Definition client_holding_n1 (served : list ClientRequest) (rq : ClientRequest)
  : ClientReply :=
  match rq with
  | ClientGet "shirts" (VStr "n1") =>
      Replied (VDict [("_index", VStr "shirts"); ("_id", VStr "n1"); ("found", VBool true);
                      ("_source", VDict [("brand", VStr "Nike"); ("color", VStr "red")])])
  | ClientDelete "shirts" (VStr "n1") _ => Replied (VDict [("result", VStr "deleted")])
  | ClientIndex _ _ _ _ => Replied (VDict [("_id", VStr "n1")])
  | _ => ElasticNotFoundError
  end.

(** ** Index lifecycle, continued ([_Index.setup], templates) *)

(** A field descriptor ([_FieldES]): the string-valued attributes its class
    defines itself (for the classes of [field.py], at most [type]) and the
    keyword arguments it was built with. *)
Record FieldES : Type := mkFieldES {
  class_strings : list (string * string);
  _elastic_fields : Dict
}.

(** [_FieldES.to_dict] *)
Definition to_dict (f : FieldES) : Dict :=
  dict_truthy
    (dict_merge (map (fun kv => (fst kv, VStr (snd kv))) (class_strings f))
       (_elastic_fields f)).

(** [field.Keyword(ignore_above)], [field.Text(...)] and
    [field.DateTime(...)] *)
Definition Keyword (ignore_above : PyVal) : FieldES :=
  {| class_strings := [("type", "keyword")];
     _elastic_fields := [("ignore_above", ignore_above)] |}.

Definition Text (elasticsearch_kwargs : Dict) : FieldES :=
  {| class_strings := [("type", "text")]; _elastic_fields := elasticsearch_kwargs |}.

Definition DateTime (elasticsearch_kwargs : Dict) : FieldES :=
  {| class_strings := [("type", "date")]; _elastic_fields := elasticsearch_kwargs |}.

(** What [_Index] reads off a record type: [Meta.index], the annotations
    of the class, [Meta.enable_source] and [Meta.version] when [Meta] has
    them, and the attributes of [Settings]. *)
Record ModelDecl : Type := mkModelDecl {
  decl_index : string;
  decl_annotations : list (string * FieldES);
  decl_enable_source : option PyVal;
  decl_version : option PyVal;
  decl_settings : Dict
}.

(** [_Index.mappings] *)
Definition mappings (d : ModelDecl) : Dict :=
  let properties := map (fun nf => (fst nf, VDict (to_dict (snd nf)))) (decl_annotations d) in
  let mappings := [("properties", VDict (dict_truthy properties))] in
  match decl_enable_source d with
  | Some enabled => dict_set "_source" (VDict [("enabled", enabled)]) mappings
  | None => mappings
  end.

(** [_Index.settings]. [idx_props] is the set literal of the two property
    names in the order its iteration gives them, which Python does not
    fix. *)
Definition settings (idx_props : list string) (d : ModelDecl) : Dict :=
  let idx_settings :=
    map (fun p => (p, default VNone (dict_get p (decl_settings d)))) idx_props in
  dict_truthy [("index", VDict (dict_truthy idx_settings))].

(** [_Index.index_template_format] *)
Definition index_template_format (idx_props : list string) (d : ModelDecl) : Dict :=
  let template :=
    [("template", VDict [("mappings", VDict (mappings d));
                         ("settings", VDict (settings idx_props d))]);
     ("index_patterns", VList [VStr (pattern (decl_index d))]);
     ("name", VStr (decl_index d));
     ("composed_of", VList []);
     ("order", VNone);
     ("priority", VInt 1)] in
  let template := match decl_version d with
                  | Some v => dict_set "version" v template
                  | None => template
                  end in
  dict_truthy template.

(** The requests of [setup]: its own and, wrapped, those of [migrate]. *)
Inductive SetupRequest : Type :=
| ExistsIndexTemplate (name : string)
| PutIndexTemplate (template : Dict)
| IndicesExists (index_name : string)
| OfMigrate (rq : Request).

Section Setup.

Variable respond : list SetupRequest -> SetupRequest -> Res PyVal.

Definition setup_request (rq : SetupRequest) (log : list SetupRequest)
  : Res PyVal * list SetupRequest :=
  (respond log rq, log ++ [rq]).

(** [migrate] run by [setup]: its requests go to the same store, after
    those already served. *)
Definition setup_migrate (_index_name now : string) (move_data update_alias : bool)
    (log : list SetupRequest) : Res PyVal * list SetupRequest :=
  let '(r, mlog) :=
    migrate (fun served rq => respond (log ++ map OfMigrate served) (OfMigrate rq))
      _index_name now move_data update_alias [] in
  (r, log ++ map OfMigrate mlog).

(** [_Index.setup] *)
Definition setup (idx_props : list string) (d : ModelDecl) (now : string)
    (move_data update_alias force_migrate : bool) (log : list SetupRequest)
  : Res PyVal * list SetupRequest :=
  match setup_request (ExistsIndexTemplate (decl_index d)) log with
  | (Raise e, log1) => (Raise e, log1)
  | (Ret exist_, log1) =>
      let '(r2, log2) :=
        if negb (truthy exist_)
        then setup_request (PutIndexTemplate (index_template_format idx_props d)) log1
        else (Ret VNone, log1) in
      match r2 with
      | Raise e => (Raise e, log2)
      | Ret _ =>
          let '(r3, log3) :=
            if force_migrate then (Ret true, log2)
            else match setup_request (IndicesExists (decl_index d)) log2 with
                 | (Ret e, l) => (Ret (negb (truthy e)), l)
                 | (Raise e, l) => (Raise e, l)
                 end in
          match r3 with
          | Raise e => (Raise e, log3)
          | Ret force_migrate =>
              if force_migrate
              then match setup_migrate (decl_index d) now move_data update_alias log3 with
                   | (Ret _, l) => (Ret VNone, l)
                   | (Raise e, l) => (Raise e, l)
                   end
              else (Ret VNone, log3)
          end
      end
  end.

End Setup.


(** Whether a name contains the wildcard character. *)
Fixpoint has_star (s : string) : bool :=
  match s with
  | EmptyString => false
  | String a s' => Ascii.eqb a "*"%char || has_star s'
  end.

(** The value of a [Settings] attribute that [settings] lets through: the
    attribute when the class has it and it is truthy. *)
Definition kept_setting (d : ModelDecl) (p : string) : option PyVal :=
  match dict_get p (decl_settings d) with
  | Some v => if truthy v then Some v else None
  | None => None
  end.


(** A record type with a keyword and a text field, and a store that holds
    nothing yet, one that has its template and index. *)
Definition ShirtDecl : ModelDecl :=
  {| decl_index := "shirts";
     decl_annotations := [("brand", Keyword VNone);
                          ("color", Text [("analyzer", VStr "english")])];
     decl_enable_source := Some (VBool false);
     decl_version := None;
     decl_settings := [("number_of_shards", VInt 3); ("number_of_replicas", VInt 0)] |}.


Definition store_set_up (served : list SetupRequest) (rq : SetupRequest) : Res PyVal :=
  match rq with
  | ExistsIndexTemplate _ => Ret (VBool true)
  | IndicesExists _ => Ret (VBool true)
  | PutIndexTemplate _ => Ret (VDict [("acknowledged", VBool true)])
  | OfMigrate rq => acknowledging_store [] rq
  end.

(** ** The specification's wording, where the code differs *)



(** Enqueueing an update or a delete without an identifier, as the
    specification words it for the session's own operations: nothing is
    appended to the buffer. *)
Definition enqueue_without_id_appends_nothing : Prop :=
  forall (body : PyVal) (index_name : string) (s : Session),
    actions (snd (update body VNone index_name s)) = actions s /\
    actions (snd (delete VNone index_name s)) = actions s.

(** The refresh encoding, as the specification words it for the policy
    given to [commit]: [None] is sent as "wait_for", [True] as "true" and
    [False] as "false". *)
Definition commit_sends_its_own_policy : Prop :=
  forall store conn (refresh : option bool) chunk_size kw (s : Session) (call : BulkCall),
    call ∈ snd (commit store conn refresh chunk_size kw s) ->
    dict_get "refresh" (bc_kwargs call)
    = Some (VStr match refresh with
                 | None => "wait_for"
                 | Some true => "true"
                 | Some false => "false"
                 end).

(** The alias after a migration, as the specification words it: it
    resolves to the new index and to no other; and what a reader sees
    during the call: the alias bound to one index. *)
Definition alias_resolves_to_new_index_alone : Prop :=
  forall respond matches (_index_name now : string) (move_data : bool)
         (log : list Request) (index_ : PyVal) (t : list (string * string)),
    migrate respond _index_name now move_data true [] = (Ret index_, log) ->
    resolve (alias _index_name) (fold_left (serve matches) log t)
    = [replace_star (pattern _index_name) now].

Definition alias_always_seen_on_one_index : Prop :=
  forall respond matches (_index_name now : string) (move_data : bool)
         (log : list Request) (index_ : PyVal) (t t' : list (string * string)),
    migrate respond _index_name now move_data true [] = (Ret index_, log) ->
    t' ∈ observable matches t log ->
    length (resolve (alias _index_name) t') = 1.

(** * Properties *)

(** ** The buffer *)

Lemma dict_get_bucket_append_same name a acts :
  bucket name (bucket_append name a acts) = bucket name acts ++ [a].
Proof.
  unfold bucket. induction acts as [|[k l] acts IH]; simpl.
  - by rewrite String.eqb_refl.
  - destruct (String.eqb_spec k name) as [->|Hne]; simpl.
    + by rewrite String.eqb_refl.
    + destruct (String.eqb_spec k name); [done | apply IH].
Qed.

Lemma dict_get_bucket_append_other name k a acts :
  k ≠ name -> bucket k (bucket_append name a acts) = bucket k acts.
Proof.
  intros Hk. unfold bucket. induction acts as [|[k' l] acts IH]; simpl.
  - destruct (String.eqb_spec name k); [congruence | done].
  - destruct (String.eqb_spec k' name) as [->|Hne]; simpl.
    + destruct (String.eqb_spec name k); [congruence | done].
    + destruct (String.eqb_spec k' k); [done | apply IH].
Qed.

Lemma _action_position name a s :
  fst (_action name a s) = length (bucket name (actions s)).
Proof.
  unfold _action; simpl. rewrite dict_get_bucket_append_same, length_app; simpl. lia.
Qed.

Lemma _action_bucket_length name a s k :
  length (bucket k (actions (snd (_action name a s)))) =
  length (bucket k (actions s)) + (if decide (name = k) then 1 else 0).
Proof.
  unfold _action; simpl. destruct (decide (name = k)) as [->|Hne].
  - by rewrite dict_get_bucket_append_same, length_app.
  - rewrite dict_get_bucket_append_other by congruence. lia.
Qed.

Lemma enqueue_is_action c s :
  exists a, enqueue c s = _action (opKind c) a s.
Proof. destruct c; simpl; eexists; reflexivity. Qed.

Lemma enqueue_position c s :
  fst (enqueue c s) = length (bucket (opKind c) (actions s)).
Proof. destruct (enqueue_is_action c s) as [a ->]. apply _action_position. Qed.

Lemma enqueue_bucket_length c s k :
  length (bucket k (actions (snd (enqueue c s)))) =
  length (bucket k (actions s)) + (if decide (opKind c = k) then 1 else 0).
Proof. destruct (enqueue_is_action c s) as [a ->]. apply _action_bucket_length. Qed.




(** C10: entering the scope empties the buffer, whatever was enqueued on
    the session object before; the other attributes are kept, and the
    first enqueue inside the scope gets position 0. *)
Theorem aenter_discards_pending (s : Session) (cs : list Enqueue) (c : Enqueue) :
  let s' := aenter (snd (enqueue_all cs s)) in
  actions s' = [] /\
  _refresh s' = _refresh s /\
  fst (enqueue c s') = 0 /\
  forall store conn refresh chunk_size kw,
    commit store conn refresh chunk_size kw s' = (Ret (VDict []), s', []).
Proof.
  simpl. split; [done|]. split; [|split; [|done]].
  - revert s. induction cs as [|c0 cs IH]; intros s; [done|].
    simpl. destruct (enqueue c0 s) as [i s1] eqn:E0.
    specialize (IH s1). destruct (enqueue_all cs s1) as [is_ s2]. simpl in *.
    rewrite IH. destruct (enqueue_is_action c0 s) as [a Ha].
    rewrite Ha in E0. unfold _action in E0. by inversion E0.
  - by rewrite enqueue_position.
Qed.

(** ** Dictionaries *)

Lemma dict_get_set_eq {A} k (v : A) d : dict_get k (dict_set k v d) = Some v.
Proof.
  induction d as [|[k' v'] d IH]; simpl.
  - by rewrite String.eqb_refl.
  - destruct (String.eqb_spec k' k) as [->|Hne]; simpl.
    + by rewrite String.eqb_refl.
    + destruct (String.eqb_spec k' k); [done | apply IH].
Qed.

Lemma dict_get_set_ne {A} k k' (v : A) d :
  k ≠ k' -> dict_get k (dict_set k' v d) = dict_get k d.
Proof.
  intros Hk. induction d as [|[k0 v0] d IH]; simpl.
  - destruct (String.eqb_spec k' k); [congruence | done].
  - destruct (String.eqb_spec k0 k') as [->|Hne]; simpl.
    + destruct (String.eqb_spec k' k); [congruence | done].
    + destruct (String.eqb_spec k0 k); [done | apply IH].
Qed.

Lemma dict_get_truthy k v d :
  dict_get k d = Some v -> truthy v = true -> dict_get k (dict_truthy d) = Some v.
Proof.
  intros Hg Hv. unfold dict_truthy. induction d as [|[k' v'] d IH]; [done|].
  simpl in Hg. rewrite filter_cons. simpl.
  destruct (String.eqb_spec k' k) as [->|Hne].
  - inversion Hg; subst v'. rewrite decide_True by done. simpl.
    by rewrite String.eqb_refl.
  - destruct (decide (truthy v' = true)); simpl.
    + destruct (String.eqb_spec k' k); [done | by apply IH].
    + by apply IH.
Qed.

Lemma dict_get_del_ne k k' d : k ≠ k' -> dict_get k (dict_del k' d) = dict_get k d.
Proof.
  intros Hk. unfold dict_del. induction d as [|[k0 v0] d IH]; [done|].
  rewrite filter_cons. simpl. destruct (decide (k0 ≠ k')) as [Hne|Heq]; simpl.
  - destruct (String.eqb_spec k0 k); [done | apply IH].
  - destruct (String.eqb_spec k0 k) as [->|_]; [|apply IH].
    exfalso. apply Heq. congruence.
Qed.

Lemma dict_get_filter_None {A} k (P : string * A -> Prop) `{!∀ x, Decision (P x)} d :
  dict_get k d = None -> dict_get k (filter P d) = None.
Proof.
  induction d as [|[k' v'] d IH]; [done|]. rewrite filter_cons. simpl.
  destruct (String.eqb_spec k' k) as [->|Hne]; [done|]. intros Hd.
  destruct (decide (P (k', v'))); simpl; [|by apply IH].
  destruct (String.eqb_spec k' k); [done | by apply IH].
Qed.

(** ** Commit *)

Section CommitFacts.

Variable async_streaming_bulk : BulkCall -> Stream.
Variable raw_connection : PyVal.

Lemma commit_calls refresh chunk_size kw s :
  snd (commit async_streaming_bulk raw_connection refresh chunk_size kw s) =
  match actions s with
  | [] => []
  | _ => snd (async_bulk async_streaming_bulk (sent_kwargs raw_connection refresh chunk_size kw s))
  end.
Proof.
  unfold commit, sent_kwargs. destruct (actions s); [done|].
  destruct (async_bulk _ _) as [[[res errors]|e] calls]; simpl; [|done].
  by destruct (truthy errors).
Qed.

Lemma async_bulk_calls kwargs call :
  call ∈ snd (async_bulk async_streaming_bulk kwargs) ->
  bc_kwargs call =
  dict_set "yield_ok" (VBool true)
    (dict_del "client" (dict_del "actions"
       (dict_del "stats_only" (dict_del "ignore_status" kwargs)))).
Proof.
  unfold async_bulk.
  destruct (dict_get "client" kwargs), (dict_get "actions" kwargs); simpl;
    intros Hin; try by apply elem_of_nil in Hin.
  apply list_elem_of_singleton in Hin. by subst call.
Qed.

Lemma sent_kwargs_refresh refresh chunk_size kw s :
  dict_get "refresh" (sent_kwargs raw_connection refresh chunk_size kw s) =
  Some (VStr (refresh_keyword (or_refresh refresh (_refresh s)))).
Proof.
  unfold sent_kwargs. apply dict_get_truthy.
  - unfold dict_merge, commit_kwargs_of. simpl.
    rewrite !dict_get_set_ne by discriminate. apply dict_get_set_eq.
  - by destruct (or_refresh refresh (_refresh s)) as [[]|].
Qed.

(** C4: whatever [commit] does (return the results, raise [SessionError],
    or let an error of the store call through), the session it leaves has
    an empty buffer; and on an empty buffer it returns the empty dict,
    leaves the session as it is and makes no call to the store. *)
Theorem commit_leaves_buffer_empty refresh chunk_size kw (s : Session) :
  actions (snd (fst (commit async_streaming_bulk raw_connection refresh chunk_size kw s)))
    = [] /\
  (actions s = [] ->
   commit async_streaming_bulk raw_connection refresh chunk_size kw s
     = (Ret (VDict []), s, [])).
Proof.
  unfold commit. destruct (actions s) eqn:Ha.
  - simpl. by rewrite Ha.
  - split; [|done].
    destruct (async_bulk _ _) as [[[res errors]|e] calls]; simpl; [|done].
    by destruct (truthy errors).
Qed.

(** C8: every call that [commit] makes to the store carries a refresh
    policy, whatever [async_bulk_kwargs] holds, and the policy is that of
    [refresh or self._refresh]: "true" when [commit] is called with
    [True]; otherwise the session's own policy decides, and [None] is sent
    as "wait_for", [True] as "true" and [False] as "false". [False] or
    [None] given to [commit] is not sent as such. *)
Theorem commit_refresh_encoding refresh chunk_size kw (s : Session) (call : BulkCall) :
  call ∈ snd (commit async_streaming_bulk raw_connection refresh chunk_size kw s) ->
  dict_get "refresh" (bc_kwargs call)
  = Some (VStr match refresh with
               | Some true => "true"
               | _ => match _refresh s with
                      | None => "wait_for"
                      | Some true => "true"
                      | Some false => "false"
                      end
               end).
Proof.
  intros Hin.
  rewrite commit_calls in Hin. destruct (actions s); [by apply elem_of_nil in Hin|].
  rewrite (async_bulk_calls _ _ Hin).
  rewrite dict_get_set_ne by discriminate.
  rewrite !dict_get_del_ne by discriminate.
  rewrite sent_kwargs_refresh.
  by destruct refresh as [[]|], (_refresh s) as [[]|].
Qed.

End CommitFacts.

Lemma commit_leaves_buffer_empty_witness :
  actions (snd (fst (commit store_without_documents es_connection (Some false) None None
                       two_deletes))) = [] /\
  commit store_without_documents es_connection (Some false) None None
    (Session_init (Some false)) = (Ret (VDict []), Session_init (Some false), []).
Proof.
  split.
  - exact (proj1 (commit_leaves_buffer_empty store_without_documents es_connection
                    (Some false) None None two_deletes)).
  - exact (proj2 (commit_leaves_buffer_empty store_without_documents es_connection
                    (Some false) None None (Session_init (Some false))) eq_refl).
Defined.

Lemma commit_refresh_encoding_witness :
  exists call,
    commit store_without_documents es_connection (Some false) None None
      (snd (delete (VStr "1") "shirts" (Session_init None))) =
      (Raise (SessionError
                (VDict [("delete",
                         VList [VDict [("_index", VStr "shirts"); ("_id", VStr "1");
                                       ("status", VInt 404);
                                       ("result", VStr "not_found")]])])),
       {| actions := []; _refresh := None; results := VDict [] |}, [call]) /\
    dict_get "refresh" (bc_kwargs call) = Some (VStr "wait_for").
Proof.
  eexists. split; [vm_compute; reflexivity|].
  refine (commit_refresh_encoding store_without_documents es_connection
            (Some false) None None
            (snd (delete (VStr "1") "shirts" (Session_init None))) _ _).
  vm_compute. apply list_elem_of_here.
Defined.

(** C8 as worded fails: the policy given to [commit] is not the one sent
    when it is [False] or [None] and the session has a policy of its own.
    [commit(refresh=False)] on a session made with [refresh=True] sends
    "true" (and [commit(refresh=None)] on a session made with
    [refresh=False] sends "false"). *)
Lemma commit_sends_the_session_policy : ~ commit_sends_its_own_policy.
Proof.
  intros H.
  assert (E : map (fun call => dict_get "refresh" (bc_kwargs call))
                (snd (commit store_without_documents es_connection (Some false) None None
                        (snd (delete (VStr "1") "shirts" (Session_init (Some true))))))
              = [Some (VStr "true")] /\
              map (fun call => dict_get "refresh" (bc_kwargs call))
                (snd (commit store_without_documents es_connection None None None
                        (snd (delete (VStr "1") "shirts" (Session_init (Some false))))))
              = [Some (VStr "false")]).
  { split; vm_compute; reflexivity. }
  destruct E as [E _].
  destruct (snd (commit store_without_documents es_connection (Some false) None None
                   (snd (delete (VStr "1") "shirts" (Session_init (Some true))))))
    as [|call calls] eqn:Hc; [discriminate E|].
  pose proof (H store_without_documents es_connection (Some false) None None
                (snd (delete (VStr "1") "shirts" (Session_init (Some true)))) call) as Hcall.
  rewrite Hc in Hcall. specialize (Hcall (list_elem_of_here _ _)).
  cbn [map] in E. rewrite Hcall in E. discriminate E.
Qed.

(** ** What reaches the streaming helper, and what comes back *)

Lemma dict_get_notin {A} k (d : list (string * A)) :
  (k ∉ map fst d) -> dict_get k d = None.
Proof.
  induction d as [|[k' v'] d IH]; [done|]. simpl. intros Hk.
  apply not_elem_of_cons in Hk as [Hne Hk].
  destruct (String.eqb_spec k' k); [congruence | by apply IH].
Qed.

Lemma dict_set_keys {A} k (v : A) d :
  map fst (dict_set k v d) = map fst d \/
  ((k ∉ map fst d) /\ map fst (dict_set k v d) = map fst d ++ [k]).
Proof.
  induction d as [|[k' v'] d IH]; simpl.
  - right. split; [apply not_elem_of_nil | done].
  - destruct (String.eqb_spec k' k) as [->|Hne]; simpl; [by left|].
    destruct IH as [->|[Hk ->]]; [by left|]. right. split; [|done].
    apply not_elem_of_cons. split; [congruence | done].
Qed.

Lemma dict_set_NoDup {A} k (v : A) d :
  NoDup (map fst d) -> NoDup (map fst (dict_set k v d)).
Proof.
  intros Hd. destruct (dict_set_keys k v d) as [->|[Hk ->]]; [done|].
  apply NoDup_app. split; [done|]. split; [|apply NoDup_singleton].
  intros x Hx Hx'. apply list_elem_of_singleton in Hx'. by subst x.
Qed.

Lemma dict_merge_NoDup {A} (d e : list (string * A)) :
  NoDup (map fst d) -> NoDup (map fst (dict_merge d e)).
Proof.
  unfold dict_merge. revert d. induction e as [|[k v] e IH]; intros d Hd; [done|].
  simpl. apply IH. by apply dict_set_NoDup.
Qed.

Lemma dict_get_falsy k v d :
  NoDup (map fst d) -> dict_get k d = Some v -> truthy v = false ->
  dict_get k (dict_truthy d) = None.
Proof.
  unfold dict_truthy. induction d as [|[k' v'] d IH]; [done|].
  rewrite filter_cons. simpl. intros Hd Hg Hv. apply NoDup_cons in Hd as [Hk' Hd].
  destruct (String.eqb_spec k' k) as [->|Hne].
  - inversion Hg; subst v'. rewrite decide_False by congruence.
    apply dict_get_filter_None. by apply dict_get_notin.
  - destruct (decide (truthy v' = true)); simpl; [|by apply IH].
    destruct (String.eqb_spec k' k); [done | by apply IH].
Qed.

(** [commit] writes ['raise_on_error': False] into the keyword
    arguments, and the comprehension that keeps the truthy entries takes
    it out again: no call to the streaming helper carries the key, so the
    helper runs with its default. *)
Lemma commit_never_sends_raise_on_error store conn refresh chunk_size kw s call :
  NoDup (map fst (or_empty kw)) ->
  call ∈ snd (commit store conn refresh chunk_size kw s) ->
  dict_get "raise_on_error" (bc_kwargs call) = None.
Proof.
  intros Hkw Hin. rewrite commit_calls in Hin.
  destruct (actions s); [by apply elem_of_nil in Hin|].
  rewrite (async_bulk_calls _ _ _ Hin).
  rewrite dict_get_set_ne by discriminate.
  rewrite !dict_get_del_ne by discriminate.
  unfold sent_kwargs. eapply (dict_get_falsy _ (VBool false)); [|  |done].
  - by apply dict_merge_NoDup.
  - unfold dict_merge, commit_kwargs_of. simpl.
    rewrite !dict_get_set_ne by discriminate. apply dict_get_set_eq.
Qed.

(** Failures that the generator yields are grouped by operation kind, each
    kind in the order of the stream. *)
Lemma drain_groups_failures ys t t' kind :
  drain false ys t = Ret t' ->
  bucket kind (bulk_errors t') = bucket kind (bulk_errors t) ++ failures_of kind ys.
Proof.
  revert t. induction ys as [|[ok item] ys IH]; intros t H.
  - inversion H; subst. by rewrite app_nil_r.
  - cbn [drain] in H. unfold mbind, Res_bind, res_bind in H.
    destruct (tally_item false ok item t) as [t1|e] eqn:E; [|done].
    rewrite (IH _ H). unfold failures_of. cbn [omap list_omap fst snd].
    fold (failures_of kind ys). unfold tally_item in E.
    destruct item as [| | | | | |d|]; try done. destruct d as [|[k info] d]; [done|].
    cbn [first_key mbind Res_bind res_bind getitem dict_get] in E.
    rewrite String.eqb_refl in E. destruct ok; cbn [negb] in E.
    + unfold mbind, Res_bind, res_bind in E.
      destruct (getitem info "_id") as [i|e]; [|done].
      inversion E; subst t1. cbn [bulk_errors]. done.
    + inversion E; subst t1. cbn [bulk_errors].
      destruct (String.eqb_spec k kind) as [->|Hne].
      * rewrite dict_get_bucket_append_same. cbn [mbind option_bind]. by rewrite <- app_assoc.
      * by rewrite dict_get_bucket_append_other.
Qed.

(** When the generator ends by raising [BulkIndexError], [async_bulk]
    records the first of its errors and no other. *)
Lemma finish_BulkIndexError_keeps_first stats_only item rest t :
  finish stats_only (BulkIndexError (item :: rest)) t
  = finish stats_only (BulkIndexError [item]) t.
Proof. reflexivity. Qed.

(** C3, at a failing input: a session that deletes two documents the
    store does not hold. The call that reaches the helper carries no
    [raise_on_error]; the helper raises [BulkIndexError] with both
    failures, and the [SessionError] that [commit] raises lists one entry
    under "delete", not two. *)
Theorem commit_two_missing_deletes_reports_one :
  exists call e1 e2,
    commit store_without_documents es_connection (Some false) None None two_deletes
      = (Raise (SessionError (VDict [("delete", VList [e1])])),
         {| actions := []; _refresh := Some false; results := VDict [] |}, [call]) /\
    dict_get "raise_on_error" (bc_kwargs call) = None /\
    store_without_documents call
      = {| yielded := [];
           ending := BulkIndexError [VDict [("delete", e1)]; VDict [("delete", e2)]] |} /\
    e1 ≠ e2.
Proof.
  do 3 eexists. split; [vm_compute; reflexivity|].
  split; [reflexivity|]. split; [vm_compute; reflexivity|]. discriminate.
Qed.

(** Had [raise_on_error=False] reached the helper, as the keyword
    arguments built by [commit] intend, both failures would be listed. *)
Lemma async_bulk_raise_on_error_False_reports_all :
  exists e1 e2 call,
    async_bulk store_without_documents
      [("client", es_connection);
       ("actions", VList (concat (map snd (actions two_deletes))));
       ("refresh", VStr "false");
       ("raise_on_error", VBool false)]
    = (Ret (VDict [], VDict [("delete", VList [e1; e2])]), [call]) /\
    e1 ≠ e2.
Proof. do 3 eexists. split; [vm_compute; reflexivity | discriminate]. Qed.

(** ** Enqueueing records *)

(** C5: a model-level update or delete of a record whose [id] is [None]
    (or any other falsy value) raises the missing-identifier [ValueError]
    in the enqueue call itself: the session, with its buffer, the records
    and the list of store calls are left exactly as they were. The
    session's own [update] and [delete], which take the identifier as an
    argument, do not look at it: whatever it is, [None] included, they
    append the mutation, carrying that identifier, to their bucket and
    return its position. *)
Theorem update_delete_without_id_fail_at_enqueue (model : nat) (m : ESModel) (st : St)
    (body _id : PyVal) (index_name : string) (s : Session) :
  heap st !! model = Some m ->
  truthy (id m) = false ->
  (SessionModel_update model st = (Raise MISSING_ID, st) /\
   SessionModel_delete model st = (Raise MISSING_ID, st)) /\
  (fst (update body _id index_name s) = length (bucket "update" (actions s)) /\
   bucket "update" (actions (snd (update body _id index_name s)))
   = bucket "update" (actions s)
     ++ [VDict [("_index", VStr index_name); ("_op_type", VStr "update");
                ("_source", VDict [("doc", body)]); ("_id", _id)]]) /\
  (fst (delete _id index_name s) = length (bucket "delete" (actions s)) /\
   bucket "delete" (actions (snd (delete _id index_name s)))
   = bucket "delete" (actions s)
     ++ [VDict [("_id", _id); ("_index", VStr index_name); ("_op_type", VStr "delete")]]).
Proof.
  intros Hm Hid. split; [|split].
  - unfold SessionModel_update, SessionModel_delete, mbind, M_bind, deref.
    rewrite Hm, Hid. done.
  - unfold update. split; [apply _action_position|].
    unfold _action. cbn [snd actions].
    by rewrite dict_get_bucket_append_same.
  - unfold delete. split; [apply _action_position|].
    unfold _action. cbn [snd actions].
    by rewrite dict_get_bucket_append_same.
Qed.

Lemma update_delete_without_id_fail_at_enqueue_witness :
  (SessionModel_update 0 unsaved_shirt_state = (Raise MISSING_ID, unsaved_shirt_state) /\
   SessionModel_delete 0 unsaved_shirt_state = (Raise MISSING_ID, unsaved_shirt_state)) /\
  (fst (update (VDict [("color", VStr "red")]) VNone "shirts" (Session_init None)) = 0 /\
   bucket "update"
     (actions (snd (update (VDict [("color", VStr "red")]) VNone "shirts"
                      (Session_init None))))
   = [VDict [("_index", VStr "shirts"); ("_op_type", VStr "update");
             ("_source", VDict [("doc", VDict [("color", VStr "red")])]);
             ("_id", VNone)]]) /\
  (fst (delete VNone "shirts" (Session_init None)) = 0 /\
   bucket "delete" (actions (snd (delete VNone "shirts" (Session_init None))))
   = [VDict [("_id", VNone); ("_index", VStr "shirts"); ("_op_type", VStr "delete")]]).
Proof.
  exact (update_delete_without_id_fail_at_enqueue 0 (shirt VNone "Adidas" "black")
           unsaved_shirt_state (VDict [("color", VStr "red")]) VNone "shirts"
           (Session_init None) eq_refl eq_refl).
Defined.

(** C5 as worded fails for the session's own operations: [update] and
    [delete] called with [None] for the identifier on a new session leave
    one mutation in the buffer. *)
Lemma Session_update_delete_accept_no_id : ~ enqueue_without_id_appends_nothing.
Proof.
  intros H.
  destruct (H (VDict [("color", VStr "red")]) "shirts" (Session_init None)) as [Hu _].
  vm_compute in Hu. discriminate Hu.
Qed.

(** ** Materialising a hit *)

(** C7: [from_es] returns [None] on the empty hit; raises
    [InvalidElasticsearchResponse] on a non-empty hit that lacks the source
    body or the identifier; and otherwise returns the record that the
    record type's constructor builds from the source body, with the hit's
    identifier as its [id] (an error of the constructor call itself,
    [ValidationError] or the [TypeError] of a source that is no mapping,
    comes out as it is). *)
Theorem from_es_cases (c : ModelClass) (data : Dict) :
  (data = [] -> from_es c data = Ret None) /\
  (data ≠ [] -> lacks "_source" data \/ lacks "_id" data ->
   from_es c data = Raise InvalidElasticsearchResponse) /\
  (forall source _id,
     dict_get "_source" data = Some source -> truthy source = true ->
     dict_get "_id" data = Some _id -> truthy _id = true ->
     from_es c data =
     match source with
     | VDict kwargs =>
         match cls_init c kwargs with
         | Some (_, fs) => Ret (Some {| cls := c; id := _id; fields := fs |})
         | None => Raise ValidationError
         end
     | _ => Raise TypeError
     end).
Proof.
  split; [by intros ->|]. split.
  - intros Hne Hl. unfold from_es, lacks in *.
    destruct data as [|kv data]; [done|]. cbn [truthy negb].
    destruct Hl as [Hl|Hl].
    + destruct (dict_get "_source" (kv :: data)); simpl; [by rewrite Hl | done].
    + destruct (dict_get "_id" (kv :: data)); simpl;
        [rewrite Hl|]; by rewrite orb_true_r.
  - intros source _id Hs Hst Hi Hit. unfold from_es.
    destruct data as [|kv data]; [done|]. cbn [truthy negb].
    rewrite Hs, Hi.
    change (default (VDict []) (Some source)) with source.
    change (default VNone (Some _id)) with _id.
    rewrite Hst, Hit. cbn [negb orb].
    unfold construct, mbind, Res_bind, res_bind.
    destruct source; try done.
    by destruct (cls_init c d) as [[? ?]|].
Qed.

Lemma from_es_cases_witness :
  from_es Shirt [] = Ret None /\
  from_es Shirt [("does not", VStr "include _source"); ("or", VStr "_id")]
    = Raise InvalidElasticsearchResponse /\
  from_es Shirt [("_index", VStr "shirts"); ("_id", VStr "x1");
                 ("_source", VDict [("brand", VStr "Gucci"); ("color", VStr "red")])]
    = Ret (Some (shirt (VStr "x1") "Gucci" "red")).
Proof.
  split; [|split].
  - exact (proj1 (from_es_cases Shirt []) eq_refl).
  - refine (proj1 (proj2 (from_es_cases Shirt _)) _ _); [discriminate | by left].
  - exact (proj2 (proj2 (from_es_cases Shirt
             [("_index", VStr "shirts"); ("_id", VStr "x1");
              ("_source", VDict [("brand", VStr "Gucci"); ("color", VStr "red")])]))
             (VDict [("brand", VStr "Gucci"); ("color", VStr "red")]) (VStr "x1")
             eq_refl eq_refl eq_refl eq_refl).
Defined.

(** ** Bulk indexing of records *)

Lemma M_bind_Ret {A B} (m : M A) (k : A -> M B) st a st' :
  m st = (Ret a, st') -> (m ≫= k) st = k a st'.
Proof. intros H. unfold mbind, M_bind. by rewrite H. Qed.

Lemma M_bind_Raise {A B} (m : M A) (k : A -> M B) st e st' :
  m st = (Raise e, st') -> (m ≫= k) st = (Raise e, st').
Proof. intros H. unfold mbind, M_bind. by rewrite H. Qed.

Lemma validate_all_valid models ms st :
  Forall2 (fun r m => heap st !! r = Some m /\ validate_model m = Ret true) models ms ->
  validate_all models st = (Ret (), st).
Proof.
  induction 1 as [|r m models ms [Hr Hv] _ IH]; [done|].
  simpl. unfold mbind, M_bind, deref, lift_res. rewrite Hr, Hv. apply IH.
Qed.

Lemma SessionModel_index_valid r m st :
  heap st !! r = Some m -> validate_model m = Ret true ->
  SessionModel_index r None st =
  (Ret (fst (enqueue (index_call m) (session st))),
   {| heap := heap st; session := snd (enqueue (index_call m) (session st));
      sent := sent st |}).
Proof.
  intros Hr Hv. unfold SessionModel_index, mbind, M_bind, deref, lift_res, to_es.
  rewrite Hr, Hv. reflexivity.
Qed.

Lemma index_all_valid models ms st :
  Forall2 (fun r m => heap st !! r = Some m /\ validate_model m = Ret true) models ms ->
  index_all models st =
  (Ret (fst (enqueue_all (map index_call ms) (session st))),
   {| heap := heap st; session := snd (enqueue_all (map index_call ms) (session st));
      sent := sent st |}).
Proof.
  intros H. revert st H. revert ms. induction models as [|r models IH]; intros ms st H.
  - apply Forall2_nil_inv_l in H as ->. by destruct st.
  - apply Forall2_cons_inv_l in H as (m & ms' & [Hr Hv] & H & ->).
    cbn [index_all map enqueue_all].
    rewrite (M_bind_Ret _ _ _ _ _ (SessionModel_index_valid r m st Hr Hv)).
    destruct (enqueue (index_call m) (session st)) as [i s1] eqn:E0.
    cbn beta iota delta [fst snd].
    rewrite (M_bind_Ret _ _ _ _ _
               (IH ms' {| heap := heap st; session := s1; sent := sent st |} H)).
    cbn [heap session sent].
    by destruct (enqueue_all (map index_call ms') s1).
Qed.

Lemma enqueue_all_index_positions ms s :
  fst (enqueue_all (map index_call ms) s)
  = seq (length (bucket "index" (actions s))) (length ms).
Proof.
  revert s. induction ms as [|m ms IH]; intros s; [done|].
  cbn [map enqueue_all]. destruct (enqueue (index_call m) s) as [i s1] eqn:E0.
  specialize (IH s1). destruct (enqueue_all (map index_call ms) s1) as [is_ s2].
  cbn [fst length seq] in *. f_equal.
  - change i with (fst (i, s1)). rewrite <- E0. apply enqueue_position.
  - rewrite IH. f_equal. change s1 with (snd (i, s1)).
    rewrite <- E0, enqueue_bucket_length. simpl. lia.
Qed.






Lemma valid_refs_in_range models ms (h : list ESModel) :
  Forall2 (fun r m => h !! r = Some m /\ validate_model m = Ret true) models ms ->
  Forall (fun r => r < length h) models /\ length ms = length models.
Proof.
  induction 1 as [|r m models ms [Hr _] _ [IH1 IH2]]; [done|]. split.
  - constructor; [by eapply lookup_lt_Some | done].
  - simpl. by rewrite IH2.
Qed.

Section BulkIndexFacts.

Variable async_streaming_bulk : BulkCall -> Stream.
Variable raw_connection : PyVal.

Lemma session_commit_eq ck st r s' calls :
  commit async_streaming_bulk raw_connection (ck_refresh ck) (ck_chunk_size ck)
    (ck_async_bulk_kwargs ck) (session st) = (r, s', calls) ->
  session_commit async_streaming_bulk raw_connection ck st =
  (r, {| heap := heap st; session := s'; sent := sent st ++ calls |}).
Proof. intros H. unfold session_commit. by rewrite H. Qed.

End BulkIndexFacts.

(** ** Bulk indexing through the class method *)

Lemma fold_bucket_append name (xs l : list PyVal) :
  fold_left (fun acts x => bucket_append name x acts) xs [(name, l)]
  = [(name, l ++ xs)].
Proof.
  revert l. induction xs as [|x xs IH]; intros l; simpl.
  - by rewrite app_nil_r.
  - rewrite String.eqb_refl, IH, <- app_assoc. done.
Qed.

Lemma bulk_index_session collection index_name s :
  snd (bulk_index collection index_name s)
  = {| actions := fold_left (fun acts x => bucket_append "index" x acts)
                    (map (index_action index_name) collection) (actions s);
       _refresh := _refresh s; results := results s |}.
Proof.
  revert s. induction collection as [|body rest IH]; intros s.
  - by destruct s.
  - cbn [bulk_index fold_left map]. destruct (index body index_name None s) as [i s1] eqn:E0.
    specialize (IH s1). destruct (bulk_index rest index_name s1) as [is_ s2].
    cbn [snd] in *. rewrite IH. unfold index, _action in E0.
    inversion E0; subst. reflexivity.
Qed.

Lemma tally_item_created info rest _id t :
  dict_get "_id" info = Some _id ->
  tally_item false true (VDict (("index", VDict info) :: rest)) t =
  Ret {| success := success t + 1; failed := failed t;
         bulk_results := bucket_append "index" _id (bulk_results t);
         bulk_errors := bulk_errors t |}.
Proof. intros Hi. unfold tally_item. simpl. rewrite Hi. reflexivity. Qed.

Lemma drain_created ys ids t :
  Forall2 created ys ids ->
  drain false ys t =
  Ret {| success := success t + length ids; failed := failed t;
         bulk_results := fold_left (fun acts x => bucket_append "index" x acts) ids
                           (bulk_results t);
         bulk_errors := bulk_errors t |}.
Proof.
  intros H. revert t. induction H as [|y i ys ids (info & rest & -> & Hi) _ IH]; intros t.
  - simpl. rewrite Nat.add_0_r. by destruct t.
  - cbn [drain]. rewrite (tally_item_created _ _ _ _ Hi).
    change (drain false ys
              {| success := success t + 1; failed := failed t;
                 bulk_results := bucket_append "index" i (bulk_results t);
                 bulk_errors := bulk_errors t |} =
            Ret {| success := success t + length (i :: ids); failed := failed t;
                   bulk_results := fold_left (fun acts x => bucket_append "index" x acts)
                                     (i :: ids) (bulk_results t);
                   bulk_errors := bulk_errors t |}).
    rewrite IH. cbn [success failed bulk_results bulk_errors length fold_left].
    do 2 f_equal. lia.
Qed.

Lemma dict_merge_commit_kwargs_of conn acts chunk_size refresh :
  dict_merge [] (commit_kwargs_of conn acts chunk_size refresh)
  = commit_kwargs_of conn acts chunk_size refresh.
Proof. reflexivity. Qed.

Lemma dict_truthy_commit_kwargs_of conn name a l refresh :
  truthy conn = true ->
  dict_truthy (commit_kwargs_of conn [(name, a :: l)] None (refresh_keyword refresh))
  = [("client", conn); ("actions", VList (a :: l));
     ("refresh", VStr (refresh_keyword refresh))].
Proof.
  intros Hconn. unfold dict_truthy, commit_kwargs_of. rewrite filter_cons.
  cbn [snd concat map]. rewrite Hconn, app_nil_r.
  by destruct refresh as [[]|].
Qed.

(** C2, as amended: for a non-empty list of bodies, the class method
    opens a session of its own with refresh enabled, sends one bulk call
    whose actions are the index actions of the bodies in input order and
    whose refresh policy is "true", and, the store reporting the created
    documents, returns their identifiers in the order reported. It assigns
    nothing: the records, the caller's session and everything else it can
    reach are as before, but for the call recorded. *)
Theorem ESModel_bulk_index_returns_ids store conn (c : ModelClass)
    (collection ids : list PyVal) (st : St) :
  collection ≠ [] -> ids ≠ [] -> truthy conn = true ->
  let call := {| bc_client := conn;
                 bc_actions := VList (map (index_action (Meta_index c)) collection);
                 bc_ignore_status := VList [];
                 bc_kwargs := [("refresh", VStr "true"); ("yield_ok", VBool true)] |} in
  Forall2 created (yielded (store call)) ids ->
  ending (store call) = StopAsyncIteration ->
  ESModel_bulk_index store conn c collection st
  = (Ret (VList ids),
     {| heap := heap st; session := session st; sent := sent st ++ [call] |}).
Proof.
  intros Hc Hi Hconn call Hy He. unfold ESModel_bulk_index.
  pose proof (bulk_index_session collection (Meta_index c)
                (aenter (Session_init (Some true)))) as Hs.
  destruct (bulk_index collection (Meta_index c) (aenter (Session_init (Some true))))
    as [is_ session1]. cbn [snd] in Hs. subst session1.
  destruct collection as [|body rest]; [done|]. cbn [fold_left map actions aenter
    clear_actions Session_init bucket_append _refresh].
  rewrite fold_bucket_append. unfold commit.
  cbn [actions _refresh or_refresh or_empty default app].
  rewrite dict_merge_commit_kwargs_of.
  rewrite (dict_truthy_commit_kwargs_of _ _ _ _ _ Hconn).
  unfold async_bulk. cbn [dict_get String.eqb Ascii.eqb Bool.eqb].
  repeat match goal with |- context [store ?x] => progress change x with call end.
  repeat match goal with |- context [[?x]] =>
    match type of x with BulkCall => progress change x with call end end.
  cbn [default truthy]. rewrite He, (drain_created _ _ _ Hy).
  destruct ids as [|i ids]; [done|].
  cbn -[call]. rewrite fold_bucket_append. cbn -[call]. reflexivity.
Qed.

Lemma ESModel_bulk_index_returns_ids_witness :
  exists call,
    ESModel_bulk_index (store_naming ["a"; "b"]) es_connection Shirt
      [VDict [("brand", VStr "Nike"); ("color", VStr "red")];
       VDict [("brand", VStr "Zara"); ("color", VStr "black")]]
      two_unsaved_shirts
    = (Ret (VList [VStr "a"; VStr "b"]),
       {| heap := heap two_unsaved_shirts; session := session two_unsaved_shirts;
          sent := [call] |}).
Proof.
  eexists.
  refine (ESModel_bulk_index_returns_ids (store_naming ["a"; "b"]) es_connection Shirt
            [VDict [("brand", VStr "Nike"); ("color", VStr "red")];
             VDict [("brand", VStr "Zara"); ("color", VStr "black")]]
            [VStr "a"; VStr "b"] two_unsaved_shirts _ _ eq_refl _ eq_refl);
    [discriminate | discriminate |].
  repeat constructor; do 2 eexists; (split; [reflexivity | reflexivity]).
Defined.

(** C2 as worded fails: the class method returns the identifier the store
    gave, and the record whose body it indexed still has no [id]. *)
Lemma ESModel_bulk_index_assigns_no_id : ~ class_bulk_index_assigns_ids.
Proof.
  intros H.
  assert (E : exists st',
             ESModel_bulk_index (store_naming ["a"]) es_connection Shirt
               [VDict [("brand", VStr "Nike"); ("color", VStr "red")]]
               {| heap := [shirt VNone "Nike" "red"];
                  session := Session_init (Some false); sent := [] |}
             = (Ret (VList [VStr "a"]), st') /\
             heap st' = [shirt VNone "Nike" "red"]).
  { eexists. split; vm_compute; reflexivity. }
  destruct E as (st' & E & Hh).
  destruct (H (store_naming ["a"]) es_connection Shirt [shirt VNone "Nike" "red"]
              [VDict [("brand", VStr "Nike"); ("color", VStr "red")]]
              {| heap := [shirt VNone "Nike" "red"];
                 session := Session_init (Some false); sent := [] |}
              (VList [VStr "a"]) st' eq_refl
              ltac:(repeat constructor) E) as [Hid _].
  rewrite Hh in Hid. apply Forall_cons in Hid as [Hid _]. by apply Hid.
Qed.

(** ** Migration and the alias *)

Lemma serve_other matches t rq : is_alias_request rq = false -> serve matches t rq = t.
Proof. by destruct rq. Qed.

Lemma fold_serve_others matches t pre :
  Forall (fun rq => is_alias_request rq = false) pre ->
  fold_left (serve matches) pre t = t.
Proof.
  induction 1 as [|rq pre Hrq _ IH]; [done|]. simpl. by rewrite serve_other.
Qed.

Lemma observable_app matches t l1 l2 :
  observable matches t (l1 ++ l2)
  = observable matches t l1 ++ observable matches (fold_left (serve matches) l1 t) l2.
Proof.
  revert t. induction l1 as [|rq l1 IH]; intros t; [done|]. simpl. by rewrite IH.
Qed.

Lemma observable_others matches t pre t' :
  Forall (fun rq => is_alias_request rq = false) pre ->
  t' ∈ observable matches t pre -> t' = t.
Proof.
  induction 1 as [|rq pre Hrq _ IH]; simpl; intros Hin.
  - by apply elem_of_nil in Hin.
  - rewrite serve_other in Hin by done.
    apply elem_of_cons in Hin as [->|Hin]; [done | by apply IH].
Qed.

Lemma resolve_after_remove matches al expr t :
  resolve al (apply_action matches t (Remove al expr))
  = filter (fun i => matches expr i = false) (resolve al t).
Proof.
  unfold resolve. cbn [apply_action]. induction t as [|[a i] t IH]; [done|].
  rewrite !filter_cons. cbn [fst snd].
  destruct (String.eqb_spec a al) as [->|Hne].
  - rewrite (decide_True (P := true = true)) by done. cbn [map snd andb].
    rewrite filter_cons. destruct (matches expr i) eqn:Hm; cbn [negb].
    + rewrite (decide_False (P := false = true)) by done.
      rewrite (decide_False (P := true = false)) by done. apply IH.
    + rewrite (decide_True (P := true = true)) by done.
      rewrite (decide_True (P := false = false)) by done.
      rewrite filter_cons. cbn [fst]. rewrite String.eqb_refl.
      rewrite (decide_True (P := true = true)) by done. cbn [map snd]. by rewrite IH.
  - rewrite (decide_False (P := false = true)) by done. cbn [andb negb].
    rewrite (decide_True (P := true = true)) by done. rewrite filter_cons. cbn [fst].
    destruct (String.eqb_spec a al); [done|].
    rewrite (decide_False (P := false = true)) by done. apply IH.
Qed.

Lemma existsb_binding al ix t :
  existsb (fun p : string * string => String.eqb (fst p) al && String.eqb (snd p) ix) t
  = bool_decide (ix ∈ resolve al t).
Proof.
  unfold resolve. induction t as [|[a i] t IH]; [done|].
  cbn [existsb fst snd]. rewrite filter_cons. cbn [fst].
  destruct (String.eqb_spec a al) as [->|Hne].
  - rewrite (decide_True (P := true = true)) by done. cbn [map snd andb].
    destruct (String.eqb_spec i ix) as [->|Hi]; cbn [orb].
    + symmetry. apply bool_decide_eq_true. left.
    + rewrite IH. apply bool_decide_ext. split; [by right|].
      intros Hin. apply elem_of_cons in Hin as [->|Hin]; [done | exact Hin].
  - rewrite (decide_False (P := false = true)) by done. cbn [andb orb]. apply IH.
Qed.

Lemma resolve_after_add matches al ix t :
  resolve al (apply_action matches t (Add al ix))
  = if decide (ix ∈ resolve al t) then resolve al t else resolve al t ++ [ix].
Proof.
  cbn [apply_action]. rewrite existsb_binding.
  destruct (decide (ix ∈ resolve al t)) as [Hin|Hout].
  - by rewrite bool_decide_eq_true_2.
  - rewrite bool_decide_eq_false_2 by done.
    unfold resolve. rewrite filter_app, map_app. f_equal.
    rewrite filter_cons. cbn [fst]. rewrite String.eqb_refl.
    by rewrite (decide_True (P := true = true)).
Qed.

Lemma filter_false_of_all_true (f : string -> bool) (l : list string) :
  (forall i, i ∈ l -> f i = true) -> filter (fun i => f i = false) l = [].
Proof.
  induction l as [|i l IH]; intros Hall; [done|].
  rewrite filter_cons. rewrite (Hall i) by left.
  rewrite (decide_False (P := true = false)) by done.
  apply IH. intros j Hj. apply Hall. by right.
Qed.

(** C9: a [migrate] call with [update_alias] set that runs to its end has
    sent, after the creation of the new index (and, when data is moved,
    the reindex and the refresh), exactly one alias request, the last of
    the call; its actions are, in this order, the removal of the alias
    from the indices matching the pattern and its addition to the new
    index. In a store that serves a request as one step, a reader sees
    during the call the table as it was before the call or the table
    that the alias request leaves, nothing in between. In that table the
    alias resolves to its former holders that do not match the pattern,
    followed by the new index: to the new index alone when every former
    holder matches the pattern, while a former holder that does not match
    it stays bound. Until the alias request is served the alias is bound
    as before the call, on a first migration to no index. *)
Theorem migrate_repoints_alias_in_one_request respond matches
    (_index_name now : string) (move_data : bool) (log0 log : list Request)
    (index_ : PyVal) (t : list (string * string)) :
  migrate respond _index_name now move_data true log0 = (Ret index_, log) ->
  exists pre,
    log = log0 ++ pre ++ [UpdateAliases
                            [Remove _index_name (_index_name +:+ "-*");
                             Add _index_name (replace_star (_index_name +:+ "-*") now)]] /\
    pre = IndicesCreate (replace_star (_index_name +:+ "-*") now)
          :: (if move_data
              then [AsyncReindex _index_name (replace_star (_index_name +:+ "-*") now);
                    IndicesRefresh (replace_star (_index_name +:+ "-*") now)]
              else []) /\
    (forall t', t' ∈ observable matches t (pre ++ [repoint _index_name now]) ->
       t' = t \/ t' = serve matches t (repoint _index_name now)) /\
    fold_left (serve matches) (pre ++ [repoint _index_name now]) t
    = serve matches t (repoint _index_name now) /\
    resolve _index_name (serve matches t (repoint _index_name now))
    = (if decide (replace_star (_index_name +:+ "-*") now
                  ∈ filter (fun i => matches (_index_name +:+ "-*") i = false)
                      (resolve _index_name t))
       then filter (fun i => matches (_index_name +:+ "-*") i = false)
              (resolve _index_name t)
       else filter (fun i => matches (_index_name +:+ "-*") i = false)
              (resolve _index_name t)
            ++ [replace_star (_index_name +:+ "-*") now]) /\
    ((forall i, i ∈ resolve _index_name t -> matches (_index_name +:+ "-*") i = true) ->
     resolve _index_name (serve matches t (repoint _index_name now))
     = [replace_star (_index_name +:+ "-*") now]) /\
    (forall i, i ∈ resolve _index_name t -> matches (_index_name +:+ "-*") i = false ->
               i ∈ resolve _index_name (serve matches t (repoint _index_name now))).
Proof.
  intros Hrun.
  change (_index_name +:+ "-*") with (pattern _index_name).
  set (next := replace_star (pattern _index_name) now).
  set (kept := filter (fun i => matches (pattern _index_name) i = false)
                 (resolve _index_name t)).
  assert (Hfinal : resolve _index_name (serve matches t (repoint _index_name now))
                   = if decide (next ∈ kept) then kept else kept ++ [next]).
  { unfold repoint, alias. cbn [serve fold_left].
    by rewrite resolve_after_add, resolve_after_remove. }
  assert (Hpre : exists pre,
             log = log0 ++ pre ++ [repoint _index_name now] /\
             pre = IndicesCreate next
                   :: (if move_data
                       then [AsyncReindex _index_name next; IndicesRefresh next]
                       else [])).
  { unfold migrate, request, mbind, IO_bind, mret, IO_ret in Hrun.
    fold next in Hrun. unfold alias in Hrun.
    destruct (respond log0 _) as [res|e]; [|done].
    destruct (getitem res "index") as [ix|e]; [|done].
    destruct move_data.
    - destruct (respond _ (AsyncReindex _ _)) as [r1|e]; [|done].
      destruct (respond _ (IndicesRefresh _)) as [r2|e]; [|done].
      destruct (respond _ (UpdateAliases _)) as [r3|e]; [|done].
      inversion Hrun; subst. eexists. split; [|reflexivity].
      rewrite <- !app_assoc. reflexivity.
    - destruct (respond _ (UpdateAliases _)) as [r3|e]; [|done].
      inversion Hrun; subst. eexists. split; [|reflexivity].
      rewrite <- !app_assoc. reflexivity. }
  destruct Hpre as (pre & -> & Hpre). exists pre.
  assert (Hothers : Forall (fun rq => is_alias_request rq = false) pre).
  { rewrite Hpre. destruct move_data; repeat constructor. }
  split; [done|]. split; [done|]. split; [|split; [|split; [|split]]].
  - intros t' Hin. rewrite observable_app in Hin. apply elem_of_app in Hin as [Hin|Hin].
    + left. by eapply observable_others.
    + right. rewrite (fold_serve_others matches t pre Hothers) in Hin.
      cbn [observable] in Hin.
      apply list_elem_of_singleton in Hin. by subst t'.
  - by rewrite fold_left_app, (fold_serve_others matches t pre Hothers).
  - exact Hfinal.
  - intros Hall. rewrite Hfinal.
    assert (Hk : kept = []) by by apply filter_false_of_all_true.
    rewrite Hk. rewrite decide_False by apply not_elem_of_nil. done.
  - intros i Hi Hm. rewrite Hfinal.
    assert (Hk : i ∈ kept) by (apply list_elem_of_filter; by split).
    destruct (decide (next ∈ kept)); [done|]. apply elem_of_app. by left.
Qed.

Lemma migrate_repoints_alias_in_one_request_witness :
  exists pre,
    migrate acknowledging_store "shirts" "20240102-030405000006" true true []
    = (Ret (VStr "shirts-20240102-030405000006"),
       pre ++ [UpdateAliases [Remove "shirts" "shirts-*";
                              Add "shirts" "shirts-20240102-030405000006"]]) /\
    pre = [IndicesCreate "shirts-20240102-030405000006";
           AsyncReindex "shirts" "shirts-20240102-030405000006";
           IndicesRefresh "shirts-20240102-030405000006"] /\
    resolve "shirts"
      (fold_left (serve wildcard_match)
         (pre ++ [UpdateAliases [Remove "shirts" "shirts-*";
                                 Add "shirts" "shirts-20240102-030405000006"]])
         shirts_aliased_once)
    = ["shirts-20240102-030405000006"].
Proof.
  destruct (migrate_repoints_alias_in_one_request acknowledging_store wildcard_match
              "shirts" "20240102-030405000006" true []
              (snd (migrate acknowledging_store "shirts" "20240102-030405000006"
                      true true []))
              (VStr "shirts-20240102-030405000006") shirts_aliased_once eq_refl)
    as (pre & Hlog & Hpre & _ & Hfold & _ & Hone & _).
  exists pre. split; [|split; [exact Hpre|]].
  - change (snd (migrate acknowledging_store "shirts" "20240102-030405000006"
                   true true [])
            = pre ++ [UpdateAliases [Remove "shirts" "shirts-*";
                                     Add "shirts" "shirts-20240102-030405000006"]])
      in Hlog.
    rewrite <- Hlog. reflexivity.
  - change (UpdateAliases [Remove "shirts" "shirts-*";
                           Add "shirts" "shirts-20240102-030405000006"])
      with (repoint "shirts" "20240102-030405000006").
    rewrite Hfold. apply Hone.
    intros i Hi. vm_compute in Hi. apply list_elem_of_singleton in Hi. by subst i.
Defined.

(** C9 as worded fails. An index that holds the alias and does not match
    the pattern keeps it: after a migration of "shirts" whose alias was on
    the index "legacy", the alias resolves to two indices. And on a first
    migration a reader sees the alias bound to no index while the new
    index is created and filled. *)
Lemma migrate_alias_on_two_indices_or_none :
  ~ alias_resolves_to_new_index_alone /\ ~ alias_always_seen_on_one_index.
Proof.
  split.
  - intros H.
    pose proof (H acknowledging_store wildcard_match "shirts" "20240102-030405000006" true
                  _ _ [("shirts", "legacy")] eq_refl) as Hr.
    vm_compute in Hr. discriminate Hr.
  - intros H.
    pose proof (H acknowledging_store wildcard_match "shirts" "20240102-030405000006" true
                  _ _ [] [] eq_refl) as Hr.
    assert (Hin : [] ∈ observable wildcard_match []
                    (snd (migrate acknowledging_store "shirts" "20240102-030405000006"
                            true true []))).
    { vm_compute. left. }
    specialize (Hr Hin). discriminate Hr.
Qed.

(** * Further properties *)

(** ** The buffer, continued *)

Lemma enqueue_request_of c s : enqueue c s = _action (opKind c) (request_of c) s.
Proof. by destruct c. Qed.

(** X1: every opKind bucket holds the actions of its own enqueue calls, in
    the order of the calls, after what it held before; calls of the other
    kinds leave it alone. *)
Theorem enqueue_all_keeps_insertion_order (cs : list Enqueue) (s : Session)
    (kind : string) :
  bucket kind (actions (snd (enqueue_all cs s))) =
  bucket kind (actions s) ++ map request_of (filter (fun c => opKind c = kind) cs).
Proof.
  revert s. induction cs as [|c cs IH]; intros s.
  - simpl. by rewrite app_nil_r.
  - cbn [enqueue_all]. destruct (enqueue c s) as [i s1] eqn:E0.
    specialize (IH s1). destruct (enqueue_all cs s1) as [is_ s2]. cbn [snd] in *.
    rewrite IH, filter_cons. rewrite enqueue_request_of in E0.
    unfold _action in E0. inversion E0; subst i s1. cbn [actions].
    destruct (decide (opKind c = kind)) as [<-|Hne].
    + rewrite dict_get_bucket_append_same. cbn [map]. by rewrite <- app_assoc.
    + by rewrite dict_get_bucket_append_other.
Qed.

(** ** Commit, continued *)

Lemma dict_get_dict_truthy k d :
  NoDup (map fst d) ->
  dict_get k (dict_truthy d) =
  match dict_get k d with
  | Some v => if truthy v then Some v else None
  | None => None
  end.
Proof.
  intros Hd. destruct (dict_get k d) as [v|] eqn:Hg.
  - destruct (truthy v) eqn:Hv; [by apply dict_get_truthy | by eapply dict_get_falsy].
  - by apply dict_get_filter_None.
Qed.

Lemma commit_kwargs_NoDup conn acts chunk_size refresh kw :
  NoDup (map fst (or_empty kw)) ->
  NoDup (map fst (dict_merge (or_empty kw)
                    (commit_kwargs_of conn acts chunk_size refresh))).
Proof. apply dict_merge_NoDup. Qed.

Lemma sent_kwargs_client conn refresh chunk_size kw s :
  NoDup (map fst (or_empty kw)) ->
  dict_get "client" (sent_kwargs conn refresh chunk_size kw s)
  = if truthy conn then Some conn else None.
Proof.
  intros Hkw. unfold sent_kwargs. rewrite dict_get_dict_truthy by by apply commit_kwargs_NoDup.
  unfold dict_merge, commit_kwargs_of. cbn [fold_left fst snd].
  rewrite !dict_get_set_ne by discriminate. by rewrite dict_get_set_eq.
Qed.

Lemma sent_kwargs_actions conn refresh chunk_size kw s :
  NoDup (map fst (or_empty kw)) ->
  dict_get "actions" (sent_kwargs conn refresh chunk_size kw s)
  = match concat (map snd (actions s)) with
    | [] => None
    | _ :: _ => Some (VList (concat (map snd (actions s))))
    end.
Proof.
  intros Hkw. unfold sent_kwargs. rewrite dict_get_dict_truthy by by apply commit_kwargs_NoDup.
  unfold dict_merge, commit_kwargs_of. cbn [fold_left fst snd].
  rewrite !dict_get_set_ne by discriminate. rewrite dict_get_set_eq.
  by destruct (concat (map snd (actions s))).
Qed.

Lemma sent_kwargs_chunk_size conn refresh chunk_size kw s :
  NoDup (map fst (or_empty kw)) ->
  dict_get "chunk_size" (sent_kwargs conn refresh chunk_size kw s)
  = match chunk_size with
    | Some n => if Z.eqb n 0 then None else Some (VInt n)
    | None => None
    end.
Proof.
  intros Hkw. unfold sent_kwargs. rewrite dict_get_dict_truthy by by apply commit_kwargs_NoDup.
  unfold dict_merge, commit_kwargs_of. cbn [fold_left fst snd].
  rewrite !dict_get_set_ne by discriminate. rewrite dict_get_set_eq.
  destruct chunk_size as [n|]; [|done]. cbn [truthy]. by destruct (Z.eqb n 0).
Qed.

Lemma sent_kwargs_stats_only conn refresh chunk_size kw s :
  NoDup (map fst (or_empty kw)) ->
  dict_get "stats_only" (sent_kwargs conn refresh chunk_size kw s) = None.
Proof.
  intros Hkw. unfold sent_kwargs. rewrite dict_get_dict_truthy by by apply commit_kwargs_NoDup.
  unfold dict_merge, commit_kwargs_of. cbn [fold_left fst snd].
  by rewrite dict_get_set_eq.
Qed.


Lemma async_bulk_without_client store kwargs :
  dict_get "client" kwargs = None -> async_bulk store kwargs = (Raise TypeError, []).
Proof. intros H. unfold async_bulk. by rewrite H. Qed.

Lemma commit_nonempty store conn refresh chunk_size kw s :
  actions s ≠ [] ->
  commit store conn refresh chunk_size kw s =
  match async_bulk store (sent_kwargs conn refresh chunk_size kw s) with
  | (Raise e, calls) => (Raise e, clear_actions s, calls)
  | (Ret (res, errors), calls) =>
      if truthy errors
      then (Raise (SessionError errors),
            {| actions := []; _refresh := _refresh s; results := res |}, calls)
      else (Ret res, {| actions := []; _refresh := _refresh s; results := res |}, calls)
  end.
Proof. intros Hne. unfold commit, sent_kwargs. by destruct (actions s). Qed.



(** X3: with a client that was never connected the raw connection is
    [None]; the comprehension that keeps truthy entries takes [client] out
    of the keyword arguments and the call of [async_bulk] fails with
    [TypeError]. No request is made, and the buffered mutations are gone. *)
Theorem commit_without_connection store conn refresh chunk_size kw (s : Session) :
  NoDup (map fst (or_empty kw)) ->
  truthy conn = false ->
  actions s ≠ [] ->
  commit store conn refresh chunk_size kw s = (Raise TypeError, clear_actions s, []).
Proof.
  intros Hkw Hconn Hs. rewrite commit_nonempty by done.
  rewrite async_bulk_without_client; [done|].
  rewrite sent_kwargs_client by done. by rewrite Hconn.
Qed.

Lemma commit_without_connection_witness :
  commit store_without_documents VNone (Some false) None None two_deletes
  = (Raise TypeError, Session_init (Some false), []).
Proof.
  exact (commit_without_connection store_without_documents VNone (Some false) None None
           two_deletes (NoDup_nil_2) eq_refl ltac:(discriminate)).
Defined.

(** X4: a call that [commit] makes carries [chunk_size] exactly when it
    was given and is not zero; [None] and [0] are dropped with the other
    falsy entries, and the helper then uses its own default. *)
Theorem commit_forwards_chunk_size store conn refresh chunk_size kw (s : Session)
    (call : BulkCall) :
  NoDup (map fst (or_empty kw)) ->
  call ∈ snd (commit store conn refresh chunk_size kw s) ->
  dict_get "chunk_size" (bc_kwargs call) =
  match chunk_size with
  | Some n => if Z.eqb n 0 then None else Some (VInt n)
  | None => None
  end.
Proof.
  intros Hkw Hin. rewrite commit_calls in Hin.
  destruct (actions s); [by apply elem_of_nil in Hin|].
  rewrite (async_bulk_calls _ _ _ Hin).
  rewrite dict_get_set_ne by discriminate.
  rewrite !dict_get_del_ne by discriminate.
  by apply sent_kwargs_chunk_size.
Qed.

Lemma commit_forwards_chunk_size_witness :
  exists call1 call2,
    snd (commit store_without_documents es_connection (Some false) (Some 100%Z) None
           two_deletes) = [call1] /\
    dict_get "chunk_size" (bc_kwargs call1) = Some (VInt 100) /\
    snd (commit store_without_documents es_connection (Some false) (Some 0%Z) None
           two_deletes) = [call2] /\
    dict_get "chunk_size" (bc_kwargs call2) = None.
Proof.
  do 2 eexists. split; [vm_compute; reflexivity|]. split.
  - exact (commit_forwards_chunk_size store_without_documents es_connection (Some false)
             (Some 100%Z) None two_deletes _ NoDup_nil_2
             ltac:(vm_compute; apply list_elem_of_here)).
  - split; [vm_compute; reflexivity|].
    exact (commit_forwards_chunk_size store_without_documents es_connection (Some false)
             (Some 0%Z) None two_deletes _ NoDup_nil_2
             ltac:(vm_compute; apply list_elem_of_here)).
Defined.

(** ** What the helper collects *)

Lemma bucket_append_not_nil name a acts : bucket_append name a acts ≠ [].
Proof. destruct acts as [|[k l] acts]; simpl; [done|]. by destruct (String.eqb k name). Qed.

Lemma tally_item_answered ok item t :
  answered (ok, item) -> exists t', tally_item false ok item t = Ret t'.
Proof.
  intros (kind & info & rest & Hitem & Hid). simpl in Hitem, Hid. subst item.
  unfold tally_item. cbn [first_key mbind Res_bind res_bind getitem dict_get].
  rewrite String.eqb_refl. destruct ok; cbn [negb].
  - destruct (Hid eq_refl) as [_id H_id]. unfold mbind, Res_bind, res_bind.
    rewrite H_id. by eexists.
  - by eexists.
Qed.

Lemma drain_answered ys t :
  Forall answered ys -> exists t', drain false ys t = Ret t'.
Proof.
  intros H. revert t. induction H as [|[ok item] ys Hy _ IH]; intros t.
  - by eexists.
  - cbn [drain]. destruct (tally_item_answered ok item t Hy) as [t1 ->].
    apply (IH t1).
Qed.

Lemma drain_groups_successes ys t t' kind :
  drain false ys t = Ret t' ->
  bucket kind (bulk_results t') = bucket kind (bulk_results t) ++ successes_of kind ys.
Proof.
  revert t. induction ys as [|[ok item] ys IH]; intros t H.
  - inversion H; subst. by rewrite app_nil_r.
  - cbn [drain] in H. unfold mbind, Res_bind, res_bind in H.
    destruct (tally_item false ok item t) as [t1|e] eqn:E; [|done].
    rewrite (IH _ H). unfold successes_of. cbn [omap list_omap fst snd].
    fold (successes_of kind ys). unfold tally_item in E.
    destruct item as [| | | | | |d|]; try done. destruct d as [|[k info] d]; [done|].
    cbn [first_key mbind Res_bind res_bind getitem dict_get] in E.
    rewrite String.eqb_refl in E. destruct ok; cbn [negb] in E.
    + unfold mbind, Res_bind, res_bind in E.
      destruct info as [| | | | | |info|]; try done. cbn [getitem] in E.
      destruct (dict_get "_id" info) as [i|] eqn:Hi; [|done].
      inversion E; subst t1. cbn [bulk_results].
      destruct (String.eqb_spec k kind) as [->|Hne].
      * rewrite dict_get_bucket_append_same. cbn [mbind option_bind].
        by rewrite <- app_assoc.
      * by rewrite dict_get_bucket_append_other.
    + inversion E; subst t1. cbn [bulk_results]. done.
Qed.

Lemma drain_errors_nil ys t t' :
  drain false ys t = Ret t' ->
  bulk_errors t' = [] <-> bulk_errors t = [] /\ Forall (fun y => fst y = true) ys.
Proof.
  revert t. induction ys as [|[ok item] ys IH]; intros t H.
  - inversion H; subst. split; [by intros -> | by intros [-> _]].
  - cbn [drain] in H. unfold mbind, Res_bind, res_bind in H.
    destruct (tally_item false ok item t) as [t1|e] eqn:E; [|done].
    rewrite (IH _ H). unfold tally_item in E.
    destruct item as [| | | | | |d|]; try done. destruct d as [|[k info] d]; [done|].
    cbn [first_key mbind Res_bind res_bind getitem dict_get] in E.
    rewrite String.eqb_refl in E. destruct ok; cbn [negb] in E.
    + unfold mbind, Res_bind, res_bind in E.
      destruct (getitem info "_id") as [i|e]; [|done].
      inversion E; subst t1. cbn [bulk_errors]. split.
      * intros [-> Hys]. split; [done|]. by constructor.
      * intros [-> Hys]. split; [done|]. by apply Forall_cons in Hys as [_ Hys].
    + inversion E; subst t1. cbn [bulk_errors]. split.
      * intros [Hnil _]. by apply bucket_append_not_nil in Hnil.
      * intros [_ Hys]. by apply Forall_cons in Hys as [Hf _].
Qed.

Lemma async_bulk_collecting store kwargs client acts :
  dict_get "client" kwargs = Some client ->
  dict_get "actions" kwargs = Some acts ->
  dict_get "stats_only" kwargs = None ->
  async_bulk store kwargs =
  (t ← (drain false (yielded (store (bulk_call_of kwargs)))
          {| success := 0; failed := 0; bulk_results := []; bulk_errors := [] |}
        ≫= finish false (ending (store (bulk_call_of kwargs))));
   mret (dict_of_buckets (bulk_results t), dict_of_buckets (bulk_errors t)),
   [bulk_call_of kwargs]).
Proof.
  intros Hc Ha Hs. unfold async_bulk, bulk_call_of. by rewrite Hc, Ha, Hs.
Qed.

Lemma truthy_dict_of_buckets E :
  truthy (dict_of_buckets E) = match E with [] => false | _ => true end.
Proof. by destruct E. Qed.

Lemma sent_kwargs_ready store conn refresh chunk_size kw s :
  NoDup (map fst (or_empty kw)) -> truthy conn = true ->
  concat (map snd (actions s)) ≠ [] ->
  actions s ≠ [] /\
  async_bulk store (sent_kwargs conn refresh chunk_size kw s) =
  (t ← (drain false
          (yielded (store (bulk_call_of (sent_kwargs conn refresh chunk_size kw s))))
          {| success := 0; failed := 0; bulk_results := []; bulk_errors := [] |}
        ≫= finish false
             (ending (store (bulk_call_of (sent_kwargs conn refresh chunk_size kw s)))));
   mret (dict_of_buckets (bulk_results t), dict_of_buckets (bulk_errors t)),
   [bulk_call_of (sent_kwargs conn refresh chunk_size kw s)]).
Proof.
  intros Hkw Hconn Hacts. split; [by destruct (actions s)|].
  apply (async_bulk_collecting _ _ conn (VList (concat (map snd (actions s))))).
  - rewrite sent_kwargs_client by done. by rewrite Hconn.
  - rewrite sent_kwargs_actions by done.
    by destruct (concat (map snd (actions s))).
  - by apply sent_kwargs_stats_only.
Qed.

(** X5: when the helper yields every outcome and then stops, [commit]
    has consumed the whole stream before it answers. It returns, per
    operation kind, the identifiers of the operations done, in the order
    of the stream; if an operation failed it raises [SessionError] instead,
    with every failure of a kind listed in stream order, which happens
    exactly when some item is not ok. Either way [self.results] holds the
    identifiers and the buffer is empty. *)
Theorem commit_reports_every_yielded_outcome store conn refresh chunk_size kw
    (s : Session) :
  NoDup (map fst (or_empty kw)) ->
  truthy conn = true ->
  concat (map snd (actions s)) ≠ [] ->
  Forall answered
    (yielded (store (bulk_call_of (sent_kwargs conn refresh chunk_size kw s)))) ->
  ending (store (bulk_call_of (sent_kwargs conn refresh chunk_size kw s)))
    = StopAsyncIteration ->
  exists R E,
    (forall kind,
       bucket kind R
       = successes_of kind
           (yielded (store (bulk_call_of (sent_kwargs conn refresh chunk_size kw s)))) /\
       bucket kind E
       = failures_of kind
           (yielded (store (bulk_call_of (sent_kwargs conn refresh chunk_size kw s))))) /\
    (E = [] <->
     Forall (fun y => fst y = true)
       (yielded (store (bulk_call_of (sent_kwargs conn refresh chunk_size kw s))))) /\
    commit store conn refresh chunk_size kw s =
    (match E with
     | [] => Ret (dict_of_buckets R)
     | _ => Raise (SessionError (dict_of_buckets E))
     end,
     {| actions := []; _refresh := _refresh s; results := dict_of_buckets R |},
     [bulk_call_of (sent_kwargs conn refresh chunk_size kw s)]).
Proof.
  intros Hkw Hconn Hacts Hys Hend.
  destruct (sent_kwargs_ready store conn refresh chunk_size kw s Hkw Hconn Hacts)
    as [Hne Hab].
  rewrite commit_nonempty, Hab, Hend by done.
  destruct (drain_answered _
              {| success := 0; failed := 0; bulk_results := []; bulk_errors := [] |} Hys)
    as [t Ht].
  rewrite Ht. exists (bulk_results t), (bulk_errors t). split; [|split].
  - intros kind. split.
    + by rewrite (drain_groups_successes _ _ _ kind Ht).
    + by rewrite (drain_groups_failures _ _ _ kind Ht).
  - rewrite (drain_errors_nil _ _ _ Ht). cbn [bulk_errors].
    split; [by intros [_ Hok] | by intros Hok].
  - cbn [mbind Res_bind res_bind finish mret Res_ret].
    rewrite truthy_dict_of_buckets. by destruct (bulk_errors t).
Qed.


Lemma created_then_missing_answered : Forall answered created_then_missing.
Proof.
  repeat constructor.
  - do 3 eexists. split; [reflexivity|]. intros _. by eexists.
  - do 3 eexists. split; [reflexivity|]. done.
Qed.

Lemma commit_reports_every_yielded_outcome_witness :
  exists R E call,
    bucket "index" R = [VStr "a"] /\
    bucket "delete" E = [VDict [("_id", VStr "9"); ("status", VInt 404)]] /\
    commit (store_yielding created_then_missing StopAsyncIteration) es_connection
      (Some false) None None index_then_delete
    = (match E with
       | [] => Ret (dict_of_buckets R)
       | _ => Raise (SessionError (dict_of_buckets E))
       end,
       {| actions := []; _refresh := Some false; results := dict_of_buckets R |},
       [call]).
Proof.
  destruct (commit_reports_every_yielded_outcome
              (store_yielding created_then_missing StopAsyncIteration) es_connection
              (Some false) None None index_then_delete NoDup_nil_2 eq_refl
              ltac:(discriminate) created_then_missing_answered eq_refl)
    as (R & E & Hb & _ & H).
  exists R, E. eexists. split; [exact (proj1 (Hb "index"))|].
  split; [exact (proj2 (Hb "delete")) | exact H].
Defined.


Lemma tally_item_stats_only ok item t :
  keyed (ok, item) ->
  tally_item true ok item t =
  Ret {| success := success t + (if ok then 1 else 0);
         failed := failed t + (if ok then 0 else 1);
         bulk_results := bulk_results t; bulk_errors := bulk_errors t |}.
Proof.
  intros (kind & info & rest & Hitem). simpl in Hitem. subst item.
  unfold tally_item. cbn [first_key mbind Res_bind res_bind].
  destruct ok; cbn [negb mret Res_ret]; by rewrite Nat.add_0_r.
Qed.

Lemma drain_stats_only ys t :
  Forall keyed ys ->
  drain true ys t =
  Ret {| success := success t + length (filter (fun y => fst y = true) ys);
         failed := failed t + length (filter (fun y => fst y = false) ys);
         bulk_results := bulk_results t; bulk_errors := bulk_errors t |}.
Proof.
  intros H. revert t. induction H as [|[ok item] ys Hy _ IH]; intros t.
  - simpl. rewrite !Nat.add_0_r. by destruct t.
  - cbn [drain]. rewrite (tally_item_stats_only _ _ _ Hy).
    cbn [mbind Res_bind res_bind]. rewrite IH.
    cbn [success failed bulk_results bulk_errors]. rewrite !filter_cons. cbn [fst].
    destruct ok; simpl; do 2 f_equal; lia.
Qed.

Lemma done_and_failed_partition (ys : list (bool * PyVal)) :
  length (filter (fun y => fst y = true) ys) + length (filter (fun y => fst y = false) ys)
  = length ys.
Proof.
  induction ys as [|[[] item] ys IH]; [done| |]; rewrite !filter_cons; simpl; lia.
Qed.

(** X7: with [stats_only] set, [async_bulk] returns two counts and no
    lists: the items reported done and the items reported failed, which
    together are all the items the stream yielded; a [BulkIndexError] that
    ends the stream counts as one more failure, however many errors it
    carries. In this mode an item needs no [_id]. *)
Theorem async_bulk_stats_only_counts store (kwargs : Dict) (client acts v : PyVal) :
  dict_get "client" kwargs = Some client ->
  dict_get "actions" kwargs = Some acts ->
  dict_get "stats_only" kwargs = Some v ->
  truthy v = true ->
  Forall keyed (yielded (store (bulk_call_of kwargs))) ->
  let ys := yielded (store (bulk_call_of kwargs)) in
  let done_ := length (filter (fun y => fst y = true) ys) in
  let failed_ := length (filter (fun y => fst y = false) ys) in
  done_ + failed_ = length ys /\
  (ending (store (bulk_call_of kwargs)) = StopAsyncIteration ->
   async_bulk store kwargs
   = (Ret (VInt (Z.of_nat done_), VInt (Z.of_nat failed_)), [bulk_call_of kwargs])) /\
  (forall item rest,
     ending (store (bulk_call_of kwargs)) = BulkIndexError (item :: rest) ->
     keyed (false, item) ->
     async_bulk store kwargs
     = (Ret (VInt (Z.of_nat done_), VInt (Z.of_nat (failed_ + 1))),
        [bulk_call_of kwargs])).
Proof.
  intros Hc Ha Hs Hv Hys ys done_ failed_.
  split; [apply done_and_failed_partition|].
  assert (Hab : async_bulk store kwargs =
                (t ← (drain true ys
                        {| success := 0; failed := 0; bulk_results := [];
                           bulk_errors := [] |}
                      ≫= finish true (ending (store (bulk_call_of kwargs))));
                 mret (VInt (Z.of_nat (success t)), VInt (Z.of_nat (failed t))),
                 [bulk_call_of kwargs])).
  { unfold ys, async_bulk, bulk_call_of. rewrite Hc, Ha, Hs.
    change (default (VBool false) (Some v)) with v. by rewrite Hv. }
  rewrite Hab, (drain_stats_only _ _ Hys). fold done_ failed_. split.
  - intros ->. reflexivity.
  - intros item rest -> Hitem. cbn [mbind Res_bind res_bind finish].
    rewrite (tally_item_stats_only _ _ _ Hitem).
    cbn [mbind Res_bind res_bind mret Res_ret success failed].
    rewrite Nat.add_0_r. reflexivity.
Qed.

Lemma async_bulk_stats_only_counts_witness :
  exists call,
    async_bulk (store_yielding created_then_missing StopAsyncIteration)
      [("client", es_connection); ("actions", VList [VDict []]); ("stats_only", VBool true)]
    = (Ret (VInt 1, VInt 1), [call]).
Proof.
  eexists.
  refine (proj1 (proj2 (async_bulk_stats_only_counts
                          (store_yielding created_then_missing StopAsyncIteration)
                          [("client", es_connection); ("actions", VList [VDict []]);
                           ("stats_only", VBool true)]
                          es_connection (VList [VDict []]) (VBool true)
                          eq_refl eq_refl eq_refl eq_refl _)) eq_refl).
  repeat constructor; by do 3 eexists.
Defined.

(** ** Model-level operations, continued *)

(** X8: a record that does not pass validation never reaches the buffer:
    each model-level enqueue raises [ValidationError] and leaves the
    session, the records and the store calls as they were. For
    [create], as for update and delete, a record without an id is turned
    away in the same way with the missing-identifier error; [index] asks
    for no id. *)
Theorem rejected_record_is_never_buffered (model : nat) (m : ESModel)
    (extra : option Dict) (st : St) :
  heap st !! model = Some m ->
  (validate_model m = Raise ValidationError ->
   SessionModel_index model extra st = (Raise ValidationError, st) /\
   (truthy (id m) = true ->
    SessionModel_update model st = (Raise ValidationError, st) /\
    SessionModel_delete model st = (Raise ValidationError, st) /\
    SessionModel_create model st = (Raise ValidationError, st))) /\
  (truthy (id m) = false ->
   SessionModel_create model st = (Raise MISSING_ID, st)).
Proof.
  intros Hm. split.
  - intros Hv. split.
    + unfold SessionModel_index, mbind, M_bind, deref, lift_res, to_es.
      rewrite Hm, Hv. done.
    + intros Hid.
      unfold SessionModel_update, SessionModel_delete, SessionModel_create,
        mbind, M_bind, deref, lift_res, to_es.
      rewrite Hm, Hid, Hv. done.
  - intros Hid. unfold SessionModel_create, mbind, M_bind, deref.
    rewrite Hm, Hid. done.
Qed.

Lemma rejected_record_is_never_buffered_witness :
  SessionModel_index 0 None repainted_shirt_state
    = (Raise ValidationError, repainted_shirt_state) /\
  SessionModel_delete 0 repainted_shirt_state
    = (Raise ValidationError, repainted_shirt_state) /\
  SessionModel_create 0 unsaved_shirt_state = (Raise MISSING_ID, unsaved_shirt_state).
Proof.
  pose proof (rejected_record_is_never_buffered 0 (shirt (VStr "7") "Nike" "blue") None
                repainted_shirt_state eq_refl) as [H _].
  destruct (H eq_refl) as [Hi Hr]. destruct (Hr eq_refl) as (_ & Hd & _).
  split; [exact Hi|]. split; [exact Hd|].
  exact (proj2 (rejected_record_is_never_buffered 0 (shirt VNone "Adidas" "black") None
                  unsaved_shirt_state eq_refl) eq_refl).
Defined.

Lemma validate_all_invalid models st :
  Forall (fun r => is_Some (heap st !! r)) models ->
  Exists (fun r => exists m, heap st !! r = Some m /\
                             validate_model m = Raise ValidationError) models ->
  validate_all models st = (Raise ValidationError, st).
Proof.
  intros Hr He. induction He as [r models (m & Hm & Hv)|r models He IH].
  - cbn [validate_all]. unfold mbind, M_bind, deref, lift_res. by rewrite Hm, Hv.
  - apply Forall_cons in Hr as [[m Hm] Hr]. cbn [validate_all].
    unfold mbind, M_bind, deref, lift_res. rewrite Hm.
    unfold validate_model. destruct (cls_init (cls m) (model_dict m)); [|done].
    by apply IH.
Qed.

(** X9: the model-level [bulk_index] validates every record before it
    enqueues any: if one record of the list fails validation the call
    raises [ValidationError] with nothing buffered, nothing sent and no
    record changed, whatever the other records are. *)
Theorem SessionModel_bulk_index_validates_first store conn (models : list nat)
    (ck : CommitArgs) (st : St) :
  Forall (fun r => is_Some (heap st !! r)) models ->
  Exists (fun r => exists m, heap st !! r = Some m /\
                             validate_model m = Raise ValidationError) models ->
  SessionModel_bulk_index store conn models ck st = (Raise ValidationError, st).
Proof.
  intros Hr He. unfold SessionModel_bulk_index.
  by rewrite (M_bind_Raise _ _ _ _ _ (validate_all_invalid _ _ Hr He)).
Qed.

Lemma SessionModel_bulk_index_validates_first_witness :
  SessionModel_bulk_index (store_naming ["a"; "b"]) es_connection [0; 1] no_commit_kwargs
    {| heap := [shirt VNone "Nike" "red"; shirt VNone "Zara" "blue"];
       session := Session_init (Some true); sent := [] |}
  = (Raise ValidationError,
     {| heap := [shirt VNone "Nike" "red"; shirt VNone "Zara" "blue"];
        session := Session_init (Some true); sent := [] |}).
Proof.
  apply SessionModel_bulk_index_validates_first.
  - repeat constructor; by eexists.
  - apply Exists_cons_tl, Exists_cons_hd. eexists. split; reflexivity.
Defined.

Lemma commit_on_empty_buffer store conn refresh chunk_size kw s :
  actions s = [] -> commit store conn refresh chunk_size kw s = (Ret (VDict []), s, []).
Proof. intros Hs. unfold commit. by rewrite Hs. Qed.

(** X10: for an empty collection both bulk-index entry points raise
    [KeyError]: nothing is enqueued, [commit] answers the empty dict without
    a store call, and the lookup of ["index"] in it fails. Neither returns
    an empty list. *)
Theorem bulk_index_of_nothing_raises_KeyError store conn (c : ModelClass)
    (ck : CommitArgs) (st : St) :
  ESModel_bulk_index store conn c [] st = (Raise (KeyError "index"), st) /\
  (actions (session st) = [] ->
   SessionModel_bulk_index store conn [] ck st = (Raise (KeyError "index"), st)).
Proof.
  split.
  - unfold ESModel_bulk_index. cbn. rewrite app_nil_r. by destruct st.
  - intros Hs. unfold SessionModel_bulk_index.
    cbn [validate_all index_all]. unfold mbind, M_bind, mret, M_ret, session_commit.
    rewrite (commit_on_empty_buffer _ _ _ _ _ _ Hs). cbn. rewrite app_nil_r.
    by destruct st.
Qed.

Lemma bulk_index_of_nothing_raises_KeyError_witness :
  SessionModel_bulk_index (store_naming []) es_connection [] no_commit_kwargs
    two_unsaved_shirts = (Raise (KeyError "index"), two_unsaved_shirts).
Proof.
  exact (proj2 (bulk_index_of_nothing_raises_KeyError (store_naming []) es_connection Shirt
                  no_commit_kwargs two_unsaved_shirts) eq_refl).
Defined.

(** X11: the positions that [bulk_index] reads back are positions in the
    session's index bucket, and it uses them to address the list of
    records. On a session that already holds at least as many index
    mutations as there are records, the commit goes through, with the old
    mutations and the new ones, and the first assignment then fails with
    [IndexError]: no record receives an identifier. *)
Theorem SessionModel_bulk_index_on_used_buffer store conn (models : list nat)
    (ms : list ESModel) (ck : CommitArgs) (st : St) (results created_id : PyVal)
    (ids : list PyVal) (s' : Session) (calls : list BulkCall) :
  models ≠ [] ->
  length models <= length (bucket "index" (actions (session st))) ->
  Forall2 (fun r m => heap st !! r = Some m /\ validate_model m = Ret true) models ms ->
  commit store conn (ck_refresh ck) (ck_chunk_size ck) (ck_async_bulk_kwargs ck)
    (snd (enqueue_all (map index_call ms) (session st))) = (Ret results, s', calls) ->
  getitem results "index" ≫= iterate = Ret (created_id :: ids) ->
  SessionModel_bulk_index store conn models ck st
  = (Raise IndexError, {| heap := heap st; session := s'; sent := sent st ++ calls |}).
Proof.
  intros Hne Hlen Hvalid Hc Hids. unfold SessionModel_bulk_index.
  destruct (valid_refs_in_range _ _ _ Hvalid) as [_ Hms].
  rewrite (M_bind_Ret _ _ _ _ _ (validate_all_valid _ _ _ Hvalid)).
  rewrite (M_bind_Ret _ _ _ _ _ (index_all_valid _ _ _ Hvalid)).
  rewrite enqueue_all_index_positions, Hms.
  pose proof (session_commit_eq store conn ck
                {| heap := heap st;
                   session := snd (enqueue_all (map index_call ms) (session st));
                   sent := sent st |} _ s' calls Hc) as Hsc.
  cbn [heap session sent] in Hsc. rewrite (M_bind_Ret _ _ _ _ _ Hsc).
  unfold lift_res. unfold mbind at 1, M_bind. rewrite Hids.
  destruct models as [|model models]; [done|]. cbn [length seq patch_ids].
  rewrite lookup_ge_None_2 by done. reflexivity.
Qed.

Lemma SessionModel_bulk_index_on_used_buffer_witness :
  exists s' calls,
    SessionModel_bulk_index (store_naming ["a"; "b"]) es_connection [0] no_commit_kwargs
      shirt_after_raw_index
    = (Raise IndexError,
       {| heap := [shirt VNone "Nike" "red"]; session := s'; sent := calls |}).
Proof.
  destruct (commit (store_naming ["a"; "b"]) es_connection (Some false) None None
              (snd (enqueue_all (map index_call [shirt VNone "Nike" "red"])
                      (session shirt_after_raw_index)))) as [[r s'] calls] eqn:E.
  assert (Hr : r = Ret (VDict [("index", VList [VStr "a"; VStr "b"])])).
  { pose proof E as E'. vm_compute in E'. by inversion E'. }
  subst r. exists s', calls.
  refine (SessionModel_bulk_index_on_used_buffer (store_naming ["a"; "b"]) es_connection
            [0] [shirt VNone "Nike" "red"] no_commit_kwargs shirt_after_raw_index
            _ (VStr "a") [VStr "b"] s' calls _ _ _ E eq_refl).
  - discriminate.
  - vm_compute. lia.
  - repeat constructor.
Defined.

(** X12: for a record that passes validation (and has an id, where one is
    needed) each model-level enqueue is the raw enqueue of the session,
    made with the record's wire body, its [Meta.index] and its id: the
    record is not changed, no store call is made, and positions and bucket
    contents are those of the raw call. *)
Theorem model_level_enqueue_goes_through_session (model : nat) (m : ESModel)
    (extra : option Dict) (st : St) :
  heap st !! model = Some m ->
  validate_model m = Ret true ->
  SessionModel_index model extra st
  = through_session (EIndex (VDict (encode_datetimes (fields m))) (Meta_index (cls m))
                       (Some (or_empty extra))) st /\
  (truthy (id m) = true ->
   SessionModel_update model st
   = through_session (EUpdate (VDict (encode_datetimes (fields m))) (id m)
                        (Meta_index (cls m))) st /\
   SessionModel_delete model st
   = through_session (EDelete (id m) (Meta_index (cls m))) st /\
   SessionModel_create model st
   = through_session (ECreate (VDict (encode_datetimes (fields m))) (id m)
                        (Meta_index (cls m))) st).
Proof.
  intros Hm Hv. split.
  - unfold SessionModel_index, mbind, M_bind, deref, lift_res, to_es.
    rewrite Hm, Hv. reflexivity.
  - intros Hid.
    unfold SessionModel_update, SessionModel_delete, SessionModel_create,
      mbind, M_bind, deref, lift_res, to_es.
    rewrite Hm, Hid, Hv. done.
Qed.

Lemma model_level_enqueue_goes_through_session_witness :
  SessionModel_update 0 saved_shirt_state
  = (Ret 0,
     {| heap := [shirt (VStr "7") "Nike" "red"];
        session := {| actions :=
                        [("update",
                          [VDict [("_index", VStr "shirts"); ("_op_type", VStr "update");
                                  ("_source",
                                   VDict [("doc", VDict [("brand", VStr "Nike");
                                                         ("color", VStr "red")])]);
                                  ("_id", VStr "7")]])];
                      _refresh := Some false; results := VList [] |};
        sent := [] |}).
Proof.
  exact (proj1 (proj2 (model_level_enqueue_goes_through_session 0
                         (shirt (VStr "7") "Nike" "red") None saved_shirt_state
                         eq_refl eq_refl) eq_refl)).
Defined.

(** ** Wire bodies *)

Lemma dict_get_filter_key {A} (P : string -> Prop) `{!∀ k, Decision (P k)} k
    (d : list (string * A)) :
  dict_get k (filter (fun kv => P (fst kv)) d) = if decide (P k) then dict_get k d else None.
Proof.
  induction d as [|[k' v'] d IH]; [by destruct (decide (P k))|].
  rewrite filter_cons. cbn [fst dict_get].
  destruct (decide (P k')) as [Hk'|Hk']; cbn [dict_get];
    destruct (String.eqb_spec k' k) as [->|Hne].
  - by destruct (decide (P k)).
  - exact IH.
  - rewrite IH. by destruct (decide (P k)).
  - exact IH.
Qed.

Lemma dict_get_encode_datetimes k d :
  dict_get k (encode_datetimes d) = encoded <$> dict_get k d.
Proof.
  unfold encode_datetimes. induction d as [|[k' v'] d IH]; [done|].
  cbn [map dict_get fst snd].
  destruct v'; cbn [fst dict_get]; destruct (String.eqb k' k); done.
Qed.

Lemma encode_datetimes_no_datetime d :
  Forall (fun kv : string * PyVal => ¬ is_datetime (snd kv)) (encode_datetimes d).
Proof.
  unfold encode_datetimes. induction d as [|[k v] d IH]; [constructor|].
  cbn [map]. constructor; [|done]. destruct v; simpl; tauto.
Qed.

Lemma filter_not_id_fields (d : Dict) :
  ("id" ∉ map fst d) -> filter (fun kv : string * PyVal => fst kv ∉ ["id"]) d = d.
Proof.
  induction d as [|[k v] d IH]; [done|]. cbn [map fst]. intros Hk.
  apply not_elem_of_cons in Hk as [Hne Hk]. rewrite filter_cons. cbn [fst].
  rewrite decide_True; [by rewrite IH|].
  intros Hin. apply list_elem_of_singleton in Hin. congruence.
Qed.

(** X13: the wire body of a record never has the key ["id"] nor an
    excluded name, never holds a datetime value, and holds every other
    field under its name, a datetime as its ISO text and anything else as
    it is; it exists only for a record that passes validation. Without
    exclusions it is the body the session operations enqueue. *)
Theorem to_es_excluding_shape (exclude : list string) (m : ESModel) :
  (validate_model m = Raise ValidationError ->
   to_es_excluding exclude m = Raise ValidationError) /\
  (("id" ∉ map fst (fields m)) -> to_es_excluding [] m = to_es m) /\
  (forall body,
     to_es_excluding exclude m = Ret body ->
     exists d,
       body = VDict d /\
       dict_get "id" d = None /\
       (forall k, k ∈ exclude -> dict_get k d = None) /\
       (forall k, k ≠ "id" -> (k ∉ exclude) ->
                  dict_get k d = encoded <$> dict_get k (fields m)) /\
       Forall (fun kv => ¬ is_datetime (snd kv)) d).
Proof.
  unfold to_es_excluding, to_es. split; [by intros ->|]. split.
  - intros Hid. destruct (validate_model m); [|done].
    cbn [mbind Res_bind res_bind mret Res_ret]. do 3 f_equal.
    unfold model_dict. rewrite filter_cons. cbn [fst].
    rewrite decide_False by (intros H; apply H; apply list_elem_of_here).
    by apply filter_not_id_fields.
  - intros body. destruct (validate_model m); [|done].
    cbn [mbind Res_bind res_bind mret Res_ret]. intros [= <-].
    eexists. split; [reflexivity|].
    assert (Hget : forall k,
               dict_get k (encode_datetimes
                             (filter (fun kv : string * PyVal => fst kv ∉ "id" :: exclude)
                                (model_dict m)))
               = if decide (k ∉ "id" :: exclude)
                 then encoded <$> dict_get k (model_dict m) else None).
    { intros k. rewrite dict_get_encode_datetimes.
      pose proof (dict_get_filter_key (fun k => k ∉ "id" :: exclude) k (model_dict m))
        as Hf.
      cbv beta in Hf. rewrite Hf.
      by destruct (decide (k ∉ "id" :: exclude)). }
    split; [|split; [|split]].
    + rewrite Hget. rewrite decide_False; [done|].
      intros H. apply H. apply list_elem_of_here.
    + intros k Hk. rewrite Hget. rewrite decide_False; [done|].
      intros H. apply H. by apply list_elem_of_further.
    + intros k Hid Hk. rewrite Hget. rewrite decide_True.
      * unfold model_dict. cbn [dict_get].
        destruct (String.eqb_spec "id" k); [congruence | done].
      * intros Hin. apply elem_of_cons in Hin as [->|Hin]; done.
    + apply encode_datetimes_no_datetime.
Qed.

Lemma to_es_excluding_shape_witness :
  to_es_excluding ["color"] (shirt (VStr "7") "Gucci" "black")
  = Ret (VDict [("brand", VStr "Gucci")]) /\
  exists d,
    VDict [("brand", VStr "Gucci")] = VDict d /\
    dict_get "id" d = None /\
    dict_get "color" d = None /\
    dict_get "brand" d = Some (VStr "Gucci").
Proof.
  split; [reflexivity|].
  destruct (proj2 (proj2 (to_es_excluding_shape ["color"] (shirt (VStr "7") "Gucci" "black")))
              (VDict [("brand", VStr "Gucci")]) eq_refl)
    as (d & Hd & Hid & Hex & Hk & _).
  exists d. split; [exact Hd|]. split; [exact Hid|]. split.
  - apply Hex. apply list_elem_of_here.
  - rewrite Hk; [reflexivity | discriminate |].
    intros Hin. apply list_elem_of_singleton in Hin. discriminate.
Defined.

(** X14: a hit whose source is a record's wire body and whose identifier
    is the record's id materialises as that record, provided the record
    has an id and the record type's constructor reads the wire body back
    to the record's field values. A record with no field at all does not
    come back: its wire body is the empty dict, which [from_es] takes for
    a missing source. *)
Theorem from_es_of_wire_body (m : ESModel) (body : PyVal) (hit : Dict) :
  to_es m = Ret body ->
  dict_get "_source" hit = Some body ->
  dict_get "_id" hit = Some (id m) ->
  (fields m = [] -> from_es (cls m) hit = Raise InvalidElasticsearchResponse) /\
  (forall _id0,
     fields m ≠ [] -> truthy (id m) = true ->
     cls_init (cls m) (encode_datetimes (fields m)) = Some (_id0, fields m) ->
     from_es (cls m) hit = Ret (Some m)).
Proof.
  unfold to_es. destruct (validate_model m); [|done].
  cbn [mbind Res_bind res_bind mret Res_ret]. intros [= <-] Hs Hi.
  destruct hit as [|kv hit]; [done|]. unfold from_es. cbn [truthy negb].
  rewrite Hs, Hi.
  change (default (VDict []) (Some (VDict (encode_datetimes (fields m)))))
    with (VDict (encode_datetimes (fields m))).
  change (default VNone (Some (id m))) with (id m). split.
  - intros ->. reflexivity.
  - intros _id0 Hf Hid Hc. destruct (fields m) as [|f fs] eqn:Hfs; [done|].
    cbn [encode_datetimes map truthy negb orb]. rewrite Hid. cbn [negb].
    unfold construct, mbind, Res_bind, res_bind.
    change (encode_datetimes (f :: fs)) with
      (match snd f with VDatetime iso => (fst f, VStr iso) | _ => f end
       :: encode_datetimes fs) in Hc.
    unfold encode_datetimes in Hc. rewrite Hc. cbn [mret Res_ret].
    destruct m. cbn in *. by subst.
Qed.

Lemma from_es_of_wire_body_witness :
  from_es Shirt [("_id", VStr "7");
                 ("_source", VDict [("brand", VStr "Gucci"); ("color", VStr "red")])]
  = Ret (Some (shirt (VStr "7") "Gucci" "red")).
Proof.
  exact (proj2 (from_es_of_wire_body (shirt (VStr "7") "Gucci" "red")
                  (VDict [("brand", VStr "Gucci"); ("color", VStr "red")])
                  [("_id", VStr "7");
                   ("_source", VDict [("brand", VStr "Gucci"); ("color", VStr "red")])]
                  eq_refl eq_refl eq_refl)
           VNone ltac:(discriminate) eq_refl eq_refl).
Defined.

(** ** Single-document operations *)

Lemma dict_get_without_id (m : ESModel) k :
  dict_get k (filter (fun kv : string * PyVal => fst kv ≠ "id") (model_dict m))
  = if decide (k ≠ "id") then dict_get k (fields m) else None.
Proof.
  pose proof (dict_get_filter_key (fun k : string => k ≠ "id") k (model_dict m)) as Hf.
  cbv beta in Hf. rewrite Hf. destruct (decide (k ≠ "id")) as [Hk|Hk]; [|done].
  unfold model_dict. cbn [dict_get]. destruct (String.eqb_spec "id" k); [congruence|done].
Qed.

Lemma index_or_cases (index_name : option string) (meta_index : string) :
  index_or index_name meta_index
  = match index_name with
    | Some (String a i) => String a i
    | _ => meta_index
    end.
Proof. by destruct index_name as [[|a i]|]. Qed.

(** X15: [save] sends nothing for a record that fails validation.
    Otherwise it sends one index request, whose target is the index
    given to the call when one is given and is not the empty string, and
    the record type's [Meta.index] otherwise; its body has every field but
    never the key ["id"], and it carries the record's current id and the
    encoded refresh policy. It changes no record but the saved one, and
    that one only when the store answers: its id becomes the [_id] of the
    response, [None] when the response has none, and that value is
    returned. *)
Theorem save_effects client (self : nat) (m : ESModel) (index_name : option string)
    (refresh : option bool) (st st' : MapperSt) (out : Outcome PyVal) :
  records st !! self = Some m ->
  save client self index_name refresh st = (out, st') ->
  (validate_model m = Raise ValidationError /\
   out = Thrown (Uncaught ValidationError) /\ st' = st) \/
  (exists body,
     validate_model m = Ret true /\
     requests st' = requests st ++
                    [ClientIndex (match index_name with
                                  | Some (String a i) => String a i
                                  | _ => Meta_index (cls m)
                                  end) (VDict body)
                       (id m) (refresh_keyword refresh)] /\
     dict_get "id" body = None /\
     (forall k, k ≠ "id" -> dict_get k body = dict_get k (fields m)) /\
     ((exists res,
         client (requests st)
           (ClientIndex (match index_name with
                         | Some (String a i) => String a i
                         | _ => Meta_index (cls m)
                         end) (VDict body)
              (id m) (refresh_keyword refresh)) = Replied (VDict res) /\
         out = Done (default VNone (dict_get "_id" res)) /\
         records st' = <[self := with_id (default VNone (dict_get "_id" res)) m]>
                         (records st)) \/
      ((forall v, out ≠ Done v) /\ records st' = records st))).
Proof.
  intros Hm. unfold save. rewrite Hm. unfold validate_model.
  rewrite index_or_cases.
  destruct (cls_init (cls m) (model_dict m)) as [p|].
  - intros Hs. right.
    exists (filter (fun kv : string * PyVal => fst kv ≠ "id") (model_dict m)).
    split; [done|].
    assert (Hid : dict_get "id"
                    (filter (fun kv : string * PyVal => fst kv ≠ "id") (model_dict m))
                  = None).
    { rewrite dict_get_without_id. by rewrite decide_False by (intros H; by apply H). }
    assert (Hk : forall k, k ≠ "id" ->
                   dict_get k (filter (fun kv : string * PyVal => fst kv ≠ "id")
                                 (model_dict m)) = dict_get k (fields m)).
    { intros k Hne. rewrite dict_get_without_id. by rewrite decide_True. }
    destruct (client (requests st) _) as [res| |e] eqn:Hc.
    + destruct res; inversion Hs; subst; cbn [requests records];
        (split; [done|]); (split; [done|]); (split; [done|]);
        try (right; by split).
      left. eexists. by repeat split.
    + inversion Hs; subst. cbn [requests records]. repeat (split; [done|]).
      right. by split.
    + inversion Hs; subst. cbn [requests records]. repeat (split; [done|]).
      right. by split.
  - intros [= <- <-]. left. by repeat split.
Qed.

Lemma save_effects_witness :
  save client_naming_n1 0 (Some "archive") (Some true) one_unsaved_shirt
  = (Done (VStr "n1"),
     {| records := [shirt (VStr "n1") "Nike" "red"];
        requests := [ClientIndex "archive"
                       (VDict [("brand", VStr "Nike"); ("color", VStr "red")])
                       VNone "true"] |}) /\
  ((validate_model (shirt VNone "Nike" "red") = Raise ValidationError /\
    Done (VStr "n1") = Thrown (Uncaught ValidationError) /\
    {| records := [shirt (VStr "n1") "Nike" "red"];
       requests := [ClientIndex "archive"
                      (VDict [("brand", VStr "Nike"); ("color", VStr "red")])
                      VNone "true"] |} = one_unsaved_shirt) \/
   exists body,
     validate_model (shirt VNone "Nike" "red") = Ret true /\
     [ClientIndex "archive" (VDict [("brand", VStr "Nike"); ("color", VStr "red")])
        VNone "true"]
     = [] ++ [ClientIndex "archive" (VDict body) VNone "true"] /\
     dict_get "id" body = None).
Proof.
  split; [reflexivity|].
  destruct (save_effects client_naming_n1 0 (shirt VNone "Nike" "red") (Some "archive")
              (Some true) one_unsaved_shirt _ _ eq_refl eq_refl)
    as [H|(body & Hv & Hr & Hid & _)].
  - by left.
  - right. exists body. by repeat split.
Defined.

(** X16: [delete] never changes a record. For a record without an id it
    raises the missing-identifier error and sends nothing; otherwise it
    sends one delete request for the record's id, whose target is the
    index given to the call when one is given and is not the empty
    string, and the record type's [Meta.index] otherwise; and the
    library's not-found error, and no other, comes out as the mapper's
    [NotFoundError]. *)
Theorem ESModel_delete_effects client str (self : nat) (m : ESModel)
    (index_name : option string) (refresh : option bool) (st st' : MapperSt)
    (out : Outcome unit) :
  records st !! self = Some m ->
  ESModel_delete client str self index_name refresh st = (out, st') ->
  records st' = records st /\
  (truthy (id m) = false ->
   out = Thrown (Uncaught MISSING_ID) /\ requests st' = requests st) /\
  (truthy (id m) = true ->
   requests st' = requests st ++
                  [ClientDelete (match index_name with
                                 | Some (String a i) => String a i
                                 | _ => Meta_index (cls m)
                                 end) (id m)
                     (refresh_keyword refresh)] /\
   (out = Thrown (NotFoundError ("document with id=" +:+ str (id m) +:+ " is not found"))
    <-> client (requests st)
          (ClientDelete (match index_name with
                         | Some (String a i) => String a i
                         | _ => Meta_index (cls m)
                         end) (id m)
             (refresh_keyword refresh)) = ElasticNotFoundError) /\
   (out = Done ()
    <-> exists res,
          client (requests st)
            (ClientDelete (match index_name with
                           | Some (String a i) => String a i
                           | _ => Meta_index (cls m)
                           end) (id m)
               (refresh_keyword refresh)) = Replied res)).
Proof.
  intros Hm. unfold ESModel_delete. rewrite Hm. cbv zeta.
  rewrite index_or_cases.
  destruct (truthy (id m)) eqn:Hid; cbn [negb].
  - destruct (client (requests st) _) as [res| |e] eqn:Hc; intros [= <- <-];
      cbn [records requests]; (split; [done|]); (split; [done|]); intros _;
      (split; [done|]); split; split; try done; try (by intros [? ?]).
    by eexists.
  - intros [= <- <-]. by repeat split.
Qed.

Lemma ESModel_delete_effects_witness :
  ESModel_delete client_naming_n1 str_of_id 0 (Some "archive") (Some false) one_saved_shirt
  = (Thrown (NotFoundError "document with id=n1 is not found"),
     {| records := [shirt (VStr "n1") "Nike" "red"];
        requests := [ClientDelete "archive" (VStr "n1") "false"] |}) /\
  ESModel_delete client_naming_n1 str_of_id 0 None (Some false) one_saved_shirt
  = (Thrown (NotFoundError "document with id=n1 is not found"),
     {| records := [shirt (VStr "n1") "Nike" "red"];
        requests := [ClientDelete "shirts" (VStr "n1") "false"] |}) /\
  ESModel_delete client_naming_n1 str_of_id 0 (Some "archive") (Some false) one_unsaved_shirt
  = (Thrown (Uncaught MISSING_ID), one_unsaved_shirt).
Proof.
  split; [|split].
  - destruct (ESModel_delete client_naming_n1 str_of_id 0 (Some "archive") (Some false)
                one_saved_shirt) as [out st'] eqn:E.
    destruct (ESModel_delete_effects client_naming_n1 str_of_id 0
                (shirt (VStr "n1") "Nike" "red") (Some "archive") (Some false)
                one_saved_shirt st' out eq_refl E) as (Hr & _ & H).
    destruct (H eq_refl) as (Hq & Hnf & _). destruct st' as [rs qs].
    cbn [records requests] in Hr, Hq. subst rs qs.
    by rewrite (proj2 Hnf eq_refl).
  - destruct (ESModel_delete client_naming_n1 str_of_id 0 None (Some false) one_saved_shirt)
      as [out st'] eqn:E.
    destruct (ESModel_delete_effects client_naming_n1 str_of_id 0
                (shirt (VStr "n1") "Nike" "red") None (Some false) one_saved_shirt st' out
                eq_refl E) as (Hr & _ & H).
    destruct (H eq_refl) as (Hq & Hnf & _). destruct st' as [rs qs].
    cbn [records requests] in Hr, Hq. subst rs qs.
    by rewrite (proj2 Hnf eq_refl).
  - destruct (ESModel_delete client_naming_n1 str_of_id 0 (Some "archive") (Some false)
                one_unsaved_shirt) as [out st'] eqn:E.
    destruct (ESModel_delete_effects client_naming_n1 str_of_id 0
                (shirt VNone "Nike" "red") (Some "archive") (Some false) one_unsaved_shirt
                st' out eq_refl E) as (Hr & H & _).
    destruct (H eq_refl) as (-> & Hq). destruct st' as [rs qs].
    cbn [records requests] in Hr, Hq. by subst rs qs.
Defined.

(** X17: [get] sends one get request and touches no record; the target of
    the request is the index given to the call when one is given and is
    not the empty string, and the record type's [Meta.index] otherwise.
    The library's not-found error comes out as the mapper's
    [NotFoundError]; a response is materialised as [from_es] does it, so
    that a response that lacks the source or the identifier raises
    [InvalidElasticsearchResponse] and an empty response gives [None]. *)
Theorem get_effects client str (c : ModelClass) (_id : PyVal)
    (index_name : option string) (st st' : MapperSt) (out : Outcome (option ESModel)) :
  get client str c _id index_name st = (out, st') ->
  st' = {| records := records st;
           requests := requests st ++
                       [ClientGet (match index_name with
                                   | Some (String a i) => String a i
                                   | _ => Meta_index c
                                   end) _id] |} /\
  (client (requests st)
     (ClientGet (match index_name with
                 | Some (String a i) => String a i
                 | _ => Meta_index c
                 end) _id)
   = ElasticNotFoundError ->
   out = Thrown (NotFoundError ("document with id " +:+ str _id +:+ " is not found"))) /\
  (forall data,
     client (requests st)
       (ClientGet (match index_name with
                   | Some (String a i) => String a i
                   | _ => Meta_index c
                   end) _id)
     = Replied (VDict data) ->
     out = match from_es c data with
           | Ret r => Done r
           | Raise e => Thrown (Uncaught e)
           end).
Proof.
  unfold get. cbv zeta. rewrite index_or_cases.
  destruct (client (requests st) _) as [res| |e] eqn:Hc.
  - destruct (truthy res) eqn:Ht; cbn [negb].
    + destruct res as [| | | | | |data0|]; try discriminate Ht;
        try (intros [= <- <-]; (split; [done|]); (split; [done|]); by intros data [=]).
      destruct (from_es c data0) as [r|e] eqn:Hf; intros [= <- <-];
        (split; [done|]); (split; [done|]); intros data [= <-]; by rewrite Hf.
    + intros [= <- <-]. split; [done|]. split; [done|]. intros data [= ->].
      destruct data; [done | discriminate Ht].
  - intros [= <- <-]. by repeat split.
  - intros [= <- <-]. by repeat split.
Qed.

Lemma get_effects_witness :
  get client_holding_n1 str_of_id Shirt (VStr "n1") None one_unsaved_shirt
  = (Done (Some (shirt (VStr "n1") "Nike" "red")),
     {| records := [shirt VNone "Nike" "red"];
        requests := [ClientGet "shirts" (VStr "n1")] |}) /\
  get client_holding_n1 str_of_id Shirt (VStr "n1") (Some "archive") one_unsaved_shirt
  = (Thrown (NotFoundError "document with id n1 is not found"),
     {| records := [shirt VNone "Nike" "red"];
        requests := [ClientGet "archive" (VStr "n1")] |}).
Proof.
  split.
  - destruct (get client_holding_n1 str_of_id Shirt (VStr "n1") None one_unsaved_shirt)
      as [out st'] eqn:E.
    destruct (get_effects client_holding_n1 str_of_id Shirt (VStr "n1") None
                one_unsaved_shirt st' out E) as (-> & _ & H).
    by rewrite (H _ eq_refl).
  - destruct (get client_holding_n1 str_of_id Shirt (VStr "n1") (Some "archive")
                one_unsaved_shirt) as [out st'] eqn:E.
    destruct (get_effects client_holding_n1 str_of_id Shirt (VStr "n1") (Some "archive")
                one_unsaved_shirt st' out E) as (-> & H & _).
    by rewrite (H eq_refl).
Defined.

(** X18: what [save] returns is what the later operations on the record
    use. After a save that returned a truthy identifier, [delete] on the
    same record sends its request for that identifier, and a second [save]
    sends it as the id of its index request (the store replaces by id);
    after a save whose response had no usable [_id], [delete] raises the
    missing-identifier error and sends nothing. *)
Theorem save_then_operate client str (self : nat) (m : ESModel)
    (index_name : option string) (refresh : option bool) (st st1 : MapperSt)
    (v : PyVal) :
  records st !! self = Some m ->
  save client self index_name refresh st = (Done v, st1) ->
  records st1 !! self = Some (with_id v m) /\
  (truthy v = false ->
   forall index' refresh',
     ESModel_delete client str self index' refresh' st1
     = (Thrown (Uncaught MISSING_ID), st1)) /\
  (truthy v = true ->
   forall index' refresh',
     requests (snd (ESModel_delete client str self index' refresh' st1))
     = requests st1 ++ [ClientDelete (index_or index' (Meta_index (cls m))) v
                          (refresh_keyword refresh')]) /\
  (validate_model (with_id v m) = Ret true ->
   forall index' refresh',
     exists body,
       requests (snd (save client self index' refresh' st1))
       = requests st1 ++ [ClientIndex (index_or index' (Meta_index (cls m))) body v
                            (refresh_keyword refresh')]).
Proof.
  intros Hm Hs.
  assert (Hm1 : records st1 !! self = Some (with_id v m)).
  { unfold save in Hs. rewrite Hm in Hs.
    destruct (validate_model m); [|done].
    destruct (client (requests st) _) as [res| |e]; [|done|done].
    destruct res; try done. inversion Hs; subst. cbn [records].
    apply list_lookup_insert_eq. by eapply lookup_lt_Some. }
  split; [done|]. split; [|split].
  - intros Hv index' refresh'. unfold ESModel_delete. rewrite Hm1. cbn [with_id id].
    by rewrite Hv.
  - intros Hv index' refresh'. unfold ESModel_delete. rewrite Hm1. cbn [with_id id cls].
    rewrite Hv. cbn [negb]. by destruct (client (requests st1) _).
  - intros Hv index' refresh'. unfold save. rewrite Hm1, Hv.
    eexists. cbn [with_id id cls].
    destruct (client (requests st1) _) as [res| |e]; [|done|done].
    by destruct res.
Qed.

Lemma save_then_operate_witness :
  exists st1,
    save client_holding_n1 0 None (Some true) one_unsaved_shirt = (Done (VStr "n1"), st1) /\
    requests (snd (ESModel_delete client_holding_n1 str_of_id 0 None (Some false) st1))
    = requests st1 ++ [ClientDelete "shirts" (VStr "n1") "false"].
Proof.
  eexists. split; [reflexivity|].
  exact (proj1 (proj2 (proj2 (save_then_operate client_holding_n1 str_of_id 0
                                (shirt VNone "Nike" "red") None (Some true)
                                one_unsaved_shirt _ (VStr "n1") eq_refl eq_refl)))
           eq_refl None (Some false)).
Defined.

(** ** Migration, continued *)




Lemma replace_star_app s t by_ :
  replace_star (s +:+ t) by_ = replace_star s by_ +:+ replace_star t by_.
Proof.
  induction s as [|a s IH]; [done|].
  change (String a s +:+ t) with (String a (s +:+ t)). cbn [replace_star].
  rewrite IH. destruct (Ascii.eqb a "*"); [|done].
  generalize (replace_star s by_) (replace_star t by_). clear.
  intros x y. induction by_ as [|b by_ IHb]; [done|].
  change (String b by_ +:+ (x +:+ y)) with (String b (by_ +:+ (x +:+ y))).
  change (String b by_ +:+ x) with (String b (by_ +:+ x)).
  change (String b (by_ +:+ x) +:+ y) with (String b ((by_ +:+ x) +:+ y)).
  by rewrite IHb.
Qed.

Lemma replace_star_without_star s by_ : has_star s = false -> replace_star s by_ = s.
Proof.
  induction s as [|a s IH]; [done|]. cbn [has_star replace_star].
  destruct (Ascii.eqb a "*"); [done|]. cbn [orb]. intros H. by rewrite IH.
Qed.

(** X20: the physical index that [migrate] creates is named after the
    logical index: the logical name, a dash and the timestamp. The
    timestamp is put in place of every ["*"] of the pattern, so that a
    wildcard in the logical name itself is replaced as well. *)
Theorem migrate_names_the_new_index (_index_name now : string) :
  replace_star (pattern _index_name) now
  = replace_star _index_name now +:+ "-" +:+ now /\
  (has_star _index_name = false ->
   replace_star (pattern _index_name) now = _index_name +:+ "-" +:+ now).
Proof.
  assert (H : replace_star (pattern _index_name) now
              = replace_star _index_name now +:+ "-" +:+ now).
  { unfold pattern. rewrite replace_star_app. f_equal.
    change (replace_star "-*" now) with (String "-" (now +:+ "")).
    change ("-" +:+ now) with (String "-" now). f_equal.
    induction now as [|a now IH]; [done|].
    change (String a now +:+ "") with (String a (now +:+ "")). by rewrite IH. }
  split; [exact H|]. intros Hs. by rewrite H, replace_star_without_star.
Qed.

Lemma migrate_names_the_new_index_witness :
  replace_star (pattern "event_log") "20240102-030405000006"
  = "event_log-20240102-030405000006".
Proof.
  exact (proj2 (migrate_names_the_new_index "event_log" "20240102-030405000006") eq_refl).
Defined.

(** ** Field descriptors, mappings, settings and the index template *)

Lemma dict_get_merge {A} k (d e : list (string * A)) :
  NoDup (map fst e) ->
  dict_get k (dict_merge d e) =
  match dict_get k e with
  | Some v => Some v
  | None => dict_get k d
  end.
Proof.
  unfold dict_merge. revert d. induction e as [|[k' v'] e IH]; intros d He; [done|].
  cbn [map fst] in He. apply NoDup_cons in He as [Hk' He].
  cbn [fold_left fst snd]. rewrite IH by done. cbn [dict_get].
  destruct (String.eqb_spec k' k) as [->|Hne].
  - rewrite (dict_get_notin k e) by done. apply dict_get_set_eq.
  - destruct (dict_get k e); [done|]. apply dict_get_set_ne. congruence.
Qed.

Lemma dict_get_map_values {A B} (g : A -> B) k (d : list (string * A)) :
  dict_get k (map (fun kv => (fst kv, g (snd kv))) d) = g <$> dict_get k d.
Proof.
  induction d as [|[k' v'] d IH]; [done|]. cbn [map dict_get fst snd].
  by destruct (String.eqb k' k).
Qed.

Lemma map_values_keys {A B} (g : A -> B) (d : list (string * A)) :
  map fst (map (fun kv => (fst kv, g (snd kv))) d) = map fst d.
Proof. induction d as [|[k v] d IH]; [done|]. cbn [map fst]. by rewrite IH. Qed.

(** X21: what a field descriptor declares under a key is the keyword
    argument of that name when there is one, and the class's own string
    attribute otherwise; either is left out when it is falsy. A falsy
    keyword argument therefore removes the class's attribute of the same
    name instead of falling back to it. *)
Theorem to_dict_lookup (f : FieldES) (k : string) :
  NoDup (map fst (class_strings f)) ->
  NoDup (map fst (_elastic_fields f)) ->
  dict_get k (to_dict f) =
  match dict_get k (_elastic_fields f) with
  | Some v => if truthy v then Some v else None
  | None => match dict_get k (class_strings f) with
            | Some s => if String.eqb s "" then None else Some (VStr s)
            | None => None
            end
  end.
Proof.
  intros Hc He. unfold to_dict. rewrite dict_get_dict_truthy.
  2:{ apply dict_merge_NoDup. by rewrite map_values_keys. }
  rewrite dict_get_merge by done. rewrite dict_get_map_values.
  destruct (dict_get k (_elastic_fields f)) as [v|]; [done|].
  destruct (dict_get k (class_strings f)) as [s|]; [|done].
  cbn [fmap option_fmap option_map truthy]. by destruct (String.eqb s "").
Qed.

Lemma to_dict_lookup_witness :
  dict_get "type" (to_dict (Text [("type", VNone); ("analyzer", VStr "english")])) = None /\
  dict_get "type" (to_dict (Text [("analyzer", VStr "english")])) = Some (VStr "text").
Proof.
  split.
  - exact (to_dict_lookup (Text [("type", VNone); ("analyzer", VStr "english")]) "type"
             ltac:(apply (bool_decide_unpack _); vm_compute; exact I)
             ltac:(apply (bool_decide_unpack _); vm_compute; exact I)).
  - exact (to_dict_lookup (Text [("analyzer", VStr "english")]) "type"
             ltac:(apply (bool_decide_unpack _); vm_compute; exact I)
             ltac:(apply (bool_decide_unpack _); vm_compute; exact I)).
Defined.



Lemma dict_truthy_cons_true k v d :
  truthy v = true -> dict_truthy ((k, v) :: d) = (k, v) :: dict_truthy d.
Proof. intros Hv. unfold dict_truthy. rewrite filter_cons. by rewrite decide_True. Qed.

Lemma dict_truthy_cons_false k v d :
  truthy v = false -> dict_truthy ((k, v) :: d) = dict_truthy d.
Proof.
  intros Hv. unfold dict_truthy. rewrite filter_cons. rewrite decide_False; [done|].
  cbn [snd]. congruence.
Qed.

Lemma dict_get_map_keys {A} (g : string -> A) k (ks : list string) :
  dict_get k (map (fun p => (p, g p)) ks) = if decide (k ∈ ks) then Some (g k) else None.
Proof.
  induction ks as [|k' ks IH]; [done|]. cbn [map dict_get].
  destruct (String.eqb_spec k' k) as [->|Hne].
  - rewrite decide_True; [done | left].
  - rewrite IH. destruct (decide (k ∈ ks)) as [Hin|Hout].
    + rewrite decide_True; [done | by right].
    + rewrite decide_False; [done|]. intros Hin.
      apply elem_of_cons in Hin as [->|Hin]; [done | by apply Hout].
Qed.

(** X23: the settings of a record type carry, under ["index"], the number
    of shards and the number of replicas of its [Settings] class, each
    only when it is set and truthy, and nothing else of that class; with
    neither of the two, the settings are empty. This holds whichever of the
    two property names the iteration yields first. *)
Theorem settings_shape (idx_props : list string) (d : ModelDecl) :
  idx_props ≡ₚ ["number_of_shards"; "number_of_replicas"] ->
  (kept_setting d "number_of_shards" = None ->
   kept_setting d "number_of_replicas" = None ->
   settings idx_props d = []) /\
  (kept_setting d "number_of_shards" ≠ None \/
   kept_setting d "number_of_replicas" ≠ None ->
   exists index,
     settings idx_props d = [("index", VDict index)] /\
     forall p,
       dict_get p index =
       if decide (p = "number_of_shards" \/ p = "number_of_replicas")
       then kept_setting d p else None).
Proof.
  intros Hp. symmetry in Hp. apply Permutation_length_2_inv in Hp.
  unfold settings, kept_setting. cbv zeta.
  assert (Hv : forall o : option PyVal,
             match o with Some v => if truthy v then Some v else None | None => None end
             = if truthy (default VNone o) then Some (default VNone o) else None).
  { by intros [v|]. }
  rewrite !Hv.
  split.
  - intros H1 H2.
    destruct (truthy (default VNone (dict_get "number_of_shards" (decl_settings d))))
      eqn:T1; [done|].
    destruct (truthy (default VNone (dict_get "number_of_replicas" (decl_settings d))))
      eqn:T2; [done|].
    destruct Hp as [-> | ->]; cbn [map];
      repeat first [ rewrite (dict_truthy_cons_false _ _ _ T1)
                   | rewrite (dict_truthy_cons_false _ _ _ T2) ];
      by rewrite dict_truthy_cons_false.
  - intros Hsome. eexists. split.
    + apply dict_truthy_cons_true. cbn [truthy].
      destruct (truthy (default VNone (dict_get "number_of_shards" (decl_settings d))))
        eqn:T1;
      destruct (truthy (default VNone (dict_get "number_of_replicas" (decl_settings d))))
        eqn:T2;
      destruct Hp as [-> | ->]; cbn [map];
      repeat first [ rewrite (dict_truthy_cons_false _ _ _ T1)
                   | rewrite (dict_truthy_cons_false _ _ _ T2)
                   | rewrite (dict_truthy_cons_true _ _ _ T1)
                   | rewrite (dict_truthy_cons_true _ _ _ T2) ];
      try done; by destruct Hsome.
    + intros p. rewrite Hv. rewrite dict_get_dict_truthy.
      2:{ destruct Hp as [-> | ->]; cbn [map fst];
          apply (bool_decide_unpack _); vm_compute; exact I. }
      rewrite (dict_get_map_keys (fun p => default VNone (dict_get p (decl_settings d)))).
      destruct (decide (p = "number_of_shards" \/ p = "number_of_replicas")) as [Hin|Hout].
      * rewrite decide_True; [done|].
        destruct Hp as [-> | ->], Hin as [-> | ->]; first [by left | by right; left].
      * rewrite decide_False; [done|]. intros Hin. apply Hout.
        destruct Hp as [-> | ->];
          (apply elem_of_cons in Hin as [->|Hin]; [auto|]);
          apply list_elem_of_singleton in Hin; auto.
Qed.

Lemma settings_shape_witness :
  exists index,
    settings ["number_of_replicas"; "number_of_shards"] ShirtDecl = [("index", VDict index)] /\
    dict_get "number_of_shards" index = Some (VInt 3) /\
    dict_get "number_of_replicas" index = None.
Proof.
  destruct (settings_shape ["number_of_replicas"; "number_of_shards"] ShirtDecl
              (Permutation_swap _ _ []))
    as [_ H].
  assert (Hk : kept_setting ShirtDecl "number_of_shards" ≠ None) by (vm_compute; discriminate).
  destruct (H (or_introl Hk)) as (index & Hs & Hi).
  exists index. split; [exact Hs|].
  split; [exact (Hi "number_of_shards") | exact (Hi "number_of_replicas")].
Defined.


(** ** Setting an index up *)



(** X25: on an index that is already set up, [setup] changes nothing: when
    the store answers that the template exists and that the index exists,
    and migration is not forced, [setup] sends these two questions and no
    other request. *)
Theorem setup_with_everything_in_place respond (idx_props : list string)
    (d : ModelDecl) (now : string) (move_data update_alias : bool)
    (log0 : list SetupRequest) (e1 e2 : PyVal) :
  respond log0 (ExistsIndexTemplate (decl_index d)) = Ret e1 ->
  truthy e1 = true ->
  respond (log0 ++ [ExistsIndexTemplate (decl_index d)]) (IndicesExists (decl_index d))
  = Ret e2 ->
  truthy e2 = true ->
  setup respond idx_props d now move_data update_alias false log0
  = (Ret VNone,
     log0 ++ [ExistsIndexTemplate (decl_index d); IndicesExists (decl_index d)]).
Proof.
  intros H1 T1 H2 T2. unfold setup, setup_request.
  rewrite H1, T1. cbn [negb]. rewrite H2, T2. cbn [negb].
  by rewrite <- app_assoc.
Qed.

Lemma setup_with_everything_in_place_witness :
  setup store_set_up ["number_of_shards"; "number_of_replicas"] ShirtDecl
    "20240102-030405000006" true true false []
  = (Ret VNone, [ExistsIndexTemplate "shirts"; IndicesExists "shirts"]).
Proof.
  exact (setup_with_everything_in_place store_set_up
           ["number_of_shards"; "number_of_replicas"] ShirtDecl
           "20240102-030405000006" true true [] (VBool true) (VBool true)
           eq_refl eq_refl eq_refl eq_refl).
Defined.





(** * Bulk indexing through the session's model interface *)





